(** * The transfer-and-verify pipeline of [modal_dataloader.py]

    A shallow embedding of the script that fetches dataset shards from the
    Hugging Face hub and copies them into a Modal volume, and the
    properties of its specification proved on it.

    The script talks to three things it does not own: the hub client
    ([hf_hub_download]), the shell ([subprocess]) and the local file
    system.  The local file system is a finite map from paths to byte
    strings; the hub client and the shell are functions of an environment
    [Env] acting on the machine state, so that every statement holds for
    every behaviour of the network, of the [modal] command line tool and of
    the remote volume.  Every call that leaves the process and every
    [print] is recorded in a trace.

    What the model takes for granted: a child process exits (the script
    waits for it without a timeout); reading or removing a local file that
    exists succeeds, and one that does not exist raises; the exceptions
    met are instances of [Exception] ([KeyboardInterrupt] is not
    modelled); [hashlib] is its documented contract, feeding a hash object
    in pieces being the same as feeding it the concatenation, over an
    arbitrary digest function; the progress bars are left out, but for
    the two counters shown on the overall one. *)

From Stdlib Require Import ZArith String Ascii List Lia.
From Stdlib.Strings Require Import Byte.
From Equations Require Import Equations.
From stdpp Require Import base option list strings gmap.

Open Scope string_scope.
Open Scope list_scope.
Open Scope Z_scope.

(** ** Data *)

(** Instances of Python's [Exception] that the code can meet.
    [subprocess.CalledProcessError] is the only class the code names in an
    [except] clause; every other class ([OSError], [FileNotFoundError],
    [TypeError], the errors of the hub client, ...) is [PyError]. *)
Inductive error :=
| CalledProcessError (returncode : Z) (cmd output stderr : string)
| PyError (cls msg : string).

(** What can leave a function of the script: an [Exception], or the
    [SystemExit] that [sys.exit] raises, which [except Exception] does not
    catch. *)
Inductive exn :=
| Exc (e : error)
| SystemExit (code : Z).

(** A finished child process, as [subprocess] reports it with
    [capture_output=True, text=True]. *)
Record Completed := {
  returncode : Z;
  stdout : string;
  stderr : string
}.

(** The lines the script prints, one constructor per [print] (and one for
    the counters shown on the progress bar), with the values interpolated
    in the line as arguments. *)
Inductive Message :=
(* run_command *)
| MsgRunning (description : string)
| MsgCompleted (description : string)
| MsgCommandFailed (description : string) (e : error)
| MsgErrorOutput (err : string)
(* preview_binary_file *)
| MsgTokens (num_tokens : nat) (tokens : list Z)
| MsgFileSize (size : nat)
| MsgNoPreview (e : error)
(* verify_modal_upload *)
| MsgHashPassed (local16 : string)
| MsgHashMismatch (local16 modal16 : string)
| MsgNoRedownload
| MsgVerifyError (e : error)
(* download_and_upload_file *)
| MsgProcessing (filename : string)
| MsgDownloaded (filename local_path : string)
| MsgPreview
| MsgLocalHash (local16 : string)
| MsgCleanedUp (filename : string) (verification_skipped : bool)
| MsgVerifying
| MsgVerificationFailed (filename : string)
| MsgUploadFailed (filename : string)
| MsgJobError (filename : string) (e : error)
(* main *)
| MsgVerificationDisabled
| MsgNoCli
| MsgTempDir (temp_dir : string)
| MsgValidationHeader
| MsgValidationFailed
| MsgTrainingHeader
| MsgProgress (success failed : Z)
| MsgSummaryHeader
| MsgUploaded (count : Z)
| MsgFailedUploads (count : Z)
| MsgSomeFailed (count : Z)
| MsgAllUploaded.

(** What the process does that can be seen from outside. *)
Inductive Event :=
| Fetch (filename : string)   (* hf_hub_download is called *)
| Exec (cmd : string)         (* a shell command is started *)
| Open (path : string)        (* a file is opened for reading *)
| Remove (path : string)      (* os.remove is called *)
| Print (msg : Message).

(** The machine: the local files and the rest of the world (the hub, the
    volume, the network), of which the script knows nothing. *)
Record Machine (X : Type) := {
  fs : gmap string (list byte);
  ext : X
}.
Arguments fs {X} _.
Arguments ext {X} _.
Arguments Build_Machine {X} _ _.

(** The collaborators of the script.  Each one may change the whole
    machine (a download writes a local file), and may raise. *)
Record Env (X : Type) := {
  (* hashlib.sha256: the 32 bytes of the digest of a byte string *)
  sha256 : list byte -> list byte;
  (* hf_hub_download(repo_id, filename, repo_type, local_dir) *)
  hf_hub_download :
    string -> string -> string -> string -> Machine X -> (error + string) * Machine X;
  (* the shell running a command line until the child exits, or the class
     and message of the exception when no child could be run or its output
     could not be decoded; CalledProcessError is raised by the check of the
     exit code only *)
  spawn : string -> Machine X -> (string * string + Completed) * Machine X;
  (* tempfile.TemporaryDirectory(): the name of the fresh directory *)
  mkdtemp : Machine X -> (error + string) * Machine X
}.
Arguments sha256 {X} _ _.
Arguments hf_hub_download {X} _ _ _ _ _ _.
Arguments spawn {X} _ _ _.
Arguments mkdtemp {X} _ _.

(** ** Strings and paths *)

(** [s.startswith(p)] *)
Fixpoint startswith (p s : string) : bool :=
  match p, s with
  | EmptyString, _ => true
  | String a p', String b s' => if Ascii.eqb a b then startswith p' s' else false
  | String _ _, EmptyString => false
  end.

Fixpoint endswith_slash (s : string) : bool :=
  match s with
  | EmptyString => false
  | String c EmptyString => Ascii.eqb c "/"
  | String _ r => endswith_slash r
  end.

(** [os.path.join(a, b)] on POSIX. *)
Definition os_path_join (a b : string) : string :=
  if startswith "/" b then b
  else if (String.eqb a "" || endswith_slash a)%bool then a +:+ b
  else a +:+ "/" +:+ b.

Fixpoint basename_from (p cur : string) : string :=
  match p with
  | EmptyString => cur
  | String c r => if Ascii.eqb c "/" then basename_from r r else basename_from r cur
  end.

(** [os.path.basename(p)]: what follows the last slash. *)
Definition os_path_basename (p : string) : string := basename_from p p.

(** [s[:n]] *)
Definition str_prefix (n : nat) (s : string) : string := substring 0 n s.

(** *** Decimal formatting *)

Definition digit_char (d : Z) : ascii := ascii_of_nat (48 + Z.to_nat d)%nat.

Fixpoint decimal_from (fuel : nat) (n : Z) (acc : string) : string :=
  match fuel with
  | O => acc
  | S fuel' =>
      let acc' := String (digit_char (n mod 10)) acc in
      if n <? 10 then acc' else decimal_from fuel' (n / 10) acc'
  end.

(** [str(n)] for [0 <= n]: a number below [2^k] has at most [k] digits. *)
Definition decimal (n : Z) : string :=
  decimal_from (S (Z.to_nat (Z.log2 n))) n "".

Fixpoint zeros (k : nat) : string :=
  match k with
  | O => ""
  | S k' => String "0" (zeros k')
  end.

(** [s.zfill(width)] for a string of digits. *)
Definition zfill (width : nat) (s : string) : string :=
  zeros (width - String.length s)%nat +:+ s.

(** [f"{i:06d}"]: the sign counts in the width. *)
Definition format_06d (i : Z) : string :=
  if i <? 0 then "-" +:+ zfill 5 (decimal (- i)) else zfill 6 (decimal i).

(** *** Hexadecimal *)

Definition hex_char (d : N) : ascii :=
  if (d <? 10)%N then ascii_of_N (48 + d) else ascii_of_N (87 + d).

Fixpoint hexlify (bs : list byte) : string :=
  match bs with
  | [] => ""
  | b :: r =>
      let n := Byte.to_N b in
      String (hex_char (n / 16)) (String (hex_char (n mod 16)) (hexlify r))
  end.

Definition is_hex_char (c : ascii) : bool :=
  let n := N_of_ascii c in
  ((48 <=? n) && (n <=? 57) || (97 <=? n) && (n <=? 102))%N%bool.

Fixpoint all_hex (s : string) : bool :=
  match s with
  | EmptyString => true
  | String c r => is_hex_char c && all_hex r
  end.

(** ** hashlib *)

(** A hash object holds what it has been fed: [update(a); update(b)] is
    [update(a + b)], and [hexdigest()] is the digest of the whole in
    lower-case hexadecimal. *)
Module hashlib.
Definition obj := list byte.
Definition new : obj := [].
Definition update (h : obj) (chunk : list byte) : obj := h ++ chunk.
Definition hexdigest (digest : list byte -> list byte) (h : obj) : string :=
  hexlify (digest h).
End hashlib.

Definition inspect {A : Type} (a : A) : {b : A | a = b} := exist _ a eq_refl.

(** [for chunk in iter(lambda: f.read(block), b""): h.update(chunk)] on
    the unread rest of the file: [f.read(block)] returns the next [block]
    bytes, fewer at the end of the file, and the loop stops at the first
    empty read.  A read that is not empty shortens the rest, so the loop
    ends. *)
Equations? read_blocks (block : nat) (rest : list byte) (h : hashlib.obj)
    : hashlib.obj by wf (length rest) lt :=
  read_blocks block rest h with inspect (take block rest) := {
    | exist _ [] _ => h
    | exist _ (c :: chunk) _ =>
        read_blocks block (drop block rest) (hashlib.update h (c :: chunk))
  }.
Proof.
  destruct block; [discriminate|]. destruct rest; [discriminate|].
  rewrite length_drop. simpl. lia.
Qed.

(** The digest of a file read [block] bytes at a time. *)
Definition stream_hexdigest (digest : list byte -> list byte) (block : nat)
    (data : list byte) : string :=
  hashlib.hexdigest digest (read_blocks block data hashlib.new).

(** ** struct *)

(** [struct.unpack('<nH', data)]: little-endian unsigned 16-bit words. *)
Fixpoint unpack_u16le (data : list byte) : list Z :=
  match data with
  | lo :: hi :: r =>
      Z.lor (Z.of_N (Byte.to_N lo)) (Z.shiftl (Z.of_N (Byte.to_N hi)) 8) :: unpack_u16le r
  | _ => []
  end.

(** ** The script *)

Section Control.
Context {X : Type}.

(** *** Control: state, exceptions, trace *)

(** A statement runs on a machine and gives a value or an exception of
    [E], the machine it leaves (also when it raises) and what it did. *)
Definition M (E A : Type) : Type :=
  Machine X -> (E + A) * Machine X * list Event.

Definition ret {E A : Type} (a : A) : M E A := fun m => (inr a, m, []).

Definition raise {E A : Type} (e : E) : M E A := fun m => (inl e, m, []).

Definition bind {E A B : Type} (c : M E A) (k : A -> M E B) : M E B :=
  fun m =>
    match c m with
    | (inr a, m1, t1) => let '(r, m2, t2) := k a m1 in (r, m2, t1 ++ t2)
    | (inl e, m1, t1) => (inl e, m1, t1)
    end.

(** [try: c except E as e: h e] for a handler that takes every exception
    of [E]. *)
Definition try_except {E E' A : Type} (c : M E A) (h : E -> M E' A) : M E' A :=
  fun m =>
    match c m with
    | (inr a, m1, t1) => (inr a, m1, t1)
    | (inl e, m1, t1) => let '(r, m2, t2) := h e m1 in (r, m2, t1 ++ t2)
    end.

(** A function that raises [Exception]s, called where [SystemExit] can
    pass too. *)
Definition lift {A : Type} (c : M error A) : M exn A :=
  fun m =>
    match c m with
    | (inr a, m1, t1) => (inr a, m1, t1)
    | (inl e, m1, t1) => (inl (Exc e), m1, t1)
    end.

Definition emit {E : Type} (ev : Event) : M E unit := fun m => (inr tt, m, [ev]).

Definition print {E : Type} (msg : Message) : M E unit := emit (Print msg).

Definition when {E : Type} (b : bool) (c : M E unit) : M E unit :=
  if b then c else ret tt.

Definition sys_exit {A : Type} (code : Z) : M exn A := raise (SystemExit code).

End Control.

Declare Scope py_scope.
Delimit Scope py_scope with py.
Notation "x <- c ;; k" := (bind c (fun x => k))
  (at level 100, c at next level, right associativity) : py_scope.
Notation "c ;; k" := (bind c (fun _ => k))
  (at level 100, right associativity) : py_scope.
Open Scope py_scope.

(** [bool(r)] for the value [run_command] returns: [None] and the empty
    string are false. *)
Definition truthy (r : option string) : bool :=
  match r with
  | None => false
  | Some out => negb (String.eqb out "")
  end.

(** [range(lo, hi)] *)
Definition range (lo hi : Z) : list Z := seqZ lo (hi - lo).

(** The command line arguments after [parse_args]. *)
Record Args := {
  volume : string;            (* --volume, default "fineweb-volume" *)
  chunks : Z;                 (* --chunks, default 8 *)
  skip_verification : bool    (* --skip-verification *)
}.

Definition validation_file : string := "finewebedu_val_000000.bin".

Definition training_file (i : Z) : string :=
  "finewebedu_train_" +:+ format_06d i +:+ ".bin".

Section Pipeline.
Context {X : Type} (env : Env X).

Abbreviation M := (@M X).

(** *** Files and processes *)

Definition FileNotFoundError (path : string) : error :=
  PyError "FileNotFoundError" path.

(** [os.path.getsize(path)] *)
Definition os_path_getsize (path : string) : M error nat :=
  fun m =>
    match fs m !! path with
    | Some data => (inr (length data), m, [])
    | None => (inl (FileNotFoundError path), m, [])
    end.

(** [open(path, "rb")] and the reading of the file: its bytes. *)
Definition open_rb (path : string) : M error (list byte) :=
  fun m =>
    match fs m !! path with
    | Some data => (inr data, m, [Open path])
    | None => (inl (FileNotFoundError path), m, [Open path])
    end.

(** [os.remove(path)] *)
Definition os_remove (path : string) : M error unit :=
  fun m =>
    match fs m !! path with
    | Some _ => (inr tt, Build_Machine (delete path (fs m)) (ext m), [Remove path])
    | None => (inl (FileNotFoundError path), m, [Remove path])
    end.

(** A child process run through the shell until it exits, its output
    captured: [Popen] followed by [communicate], or [subprocess.run]. *)
Definition child (cmd : string) : M error Completed :=
  fun m =>
    match spawn env cmd m with
    | (inr p, m1) => (inr p, m1, [Exec cmd])
    | (inl (cls, msg), m1) => (inl (PyError cls msg), m1, [Exec cmd])
    end.

(** [subprocess.run(cmd, shell=True, check=True, capture_output=True, text=True)] *)
Definition subprocess_run_check (cmd : string) : M error Completed :=
  p <- child cmd ;;
  if returncode p =? 0 then ret p
  else raise (CalledProcessError (returncode p) cmd (stdout p) (stderr p)).

(** *** run_command *)

Definition run_command (cmd description : string) (show_progress : bool)
    : M error (option string) :=
  when show_progress (print (MsgRunning description)) ;;
  try_except
    (p <- (if show_progress then child cmd else subprocess_run_check cmd) ;;
     (if (if show_progress then negb (returncode p =? 0) else false)
      then raise (CalledProcessError (if show_progress then returncode p else 0)
                    cmd (stdout p) (stderr p))
      else ret tt) ;;
     when show_progress (print (MsgCompleted description)) ;;
     ret (Some (stdout p)))
    (fun e =>
       match e with
       | CalledProcessError _ _ _ err =>
           print (MsgCommandFailed description e) ;;
           print (MsgErrorOutput err) ;;
           ret None
       | PyError _ _ => raise e
       end).

(** *** calculate_file_hash *)

Definition calculate_file_hash (file_path : string) : M error string :=
  file_size <- os_path_getsize file_path ;;
  data <- open_rb file_path ;;
  ret (stream_hexdigest (sha256 env) 4096 data).

(** *** preview_binary_file *)

Definition preview_binary_file (file_path : string) (num_tokens : nat) : M error unit :=
  try_except
    (content <- open_rb file_path ;;
     let data := take (num_tokens * 2) content in
     let num_tokens :=
       if (length data <? num_tokens * 2)%nat then (length data / 2)%nat else num_tokens in
     let tokens := unpack_u16le (take (num_tokens * 2) data) in
     print (MsgTokens num_tokens tokens) ;;
     print (MsgFileSize (length content)))
    (fun e => print (MsgNoPreview e)).

(** *** verify_modal_upload *)

(** [h[:16]] for [h] a digest or [None]. *)
Definition slice16 (h : option string) : M error string :=
  match h with
  | Some s => ret (str_prefix 16 s)
  | None => raise (PyError "TypeError" "'NoneType' object is not subscriptable")
  end.

Definition verify_path_of (temp_dir remote_path : string) : string :=
  os_path_join temp_dir ("verify_" +:+ os_path_basename remote_path).

Definition download_cmd_of (volume_name remote_path verify_path : string) : string :=
  "modal volume get " +:+ volume_name +:+ " " +:+ remote_path +:+ " " +:+ verify_path.

Definition verify_modal_upload (volume_name remote_path : string)
    (local_hash : option string) (temp_dir : string) : M error bool :=
  try_except
    (let verify_path := verify_path_of temp_dir remote_path in
     let download_cmd := download_cmd_of volume_name remote_path verify_path in
     r <- run_command download_cmd
            ("Downloading " +:+ remote_path +:+ " for verification") false ;;
     if truthy r then
       modal_hash <- calculate_file_hash verify_path ;;
       os_remove verify_path ;;
       if decide (local_hash = Some modal_hash) then
         l16 <- slice16 local_hash ;;
         print (MsgHashPassed l16) ;;
         ret true
       else
         l16 <- slice16 local_hash ;;
         print (MsgHashMismatch l16 (str_prefix 16 modal_hash)) ;;
         ret false
     else
       print MsgNoRedownload ;;
       ret false)
    (fun e => print (MsgVerifyError e) ;; ret false).

(** *** download_and_upload_file *)

Definition upload_cmd_of (volume_name local_path filename : string) : string :=
  "modal volume put " +:+ volume_name +:+ " " +:+ local_path +:+ " /" +:+ filename.

(** Two blocks of [download_and_upload_file], named so that they can be
    spoken of alone; [download_and_upload_file_split] shows that the
    function is the one after the other.

    The upload and its verification: the statements from [upload_cmd = ...]
    to the end of the [try] block, which the specification calls
    [upload_and_verify]. *)
Definition upload_and_verify (filename temp_dir volume_name : string)
    (skip_verification : bool) (local_path : string)
    (local_hash : option string) : M error bool :=
  let upload_cmd := upload_cmd_of volume_name local_path filename in
  r <- run_command upload_cmd ("Uploading " +:+ filename +:+ " to Modal volume") true ;;
  if truthy r then
    if skip_verification then
      os_remove local_path ;;
      print (MsgCleanedUp filename true) ;;
      ret true
    else
      print MsgVerifying ;;
      ok <- verify_modal_upload volume_name ("/" +:+ filename) local_hash temp_dir ;;
      if ok then
        os_remove local_path ;;
        print (MsgCleanedUp filename false) ;;
        ret true
      else
        print (MsgVerificationFailed filename) ;;
        ret false
  else
    print (MsgUploadFailed filename) ;;
    ret false.

(** The statements of the [try] block before the upload: fetch, preview
    and, unless verification is skipped, the digest of the fetched
    file. *)
Definition fetch_and_hash (filename temp_dir : string) (skip_verification : bool)
    : M error (string * option string) :=
  local_path <- (emit (Fetch filename) ;;
                 fun m =>
                   let '(r, m1) :=
                     hf_hub_download env "kjj0/finewebedu10B-gpt2" filename
                       "dataset" temp_dir m in
                   (r, m1, [])) ;;
  print (MsgDownloaded filename local_path) ;;
  print MsgPreview ;;
  preview_binary_file local_path 10 ;;
  local_hash <- (if negb skip_verification then
                   h <- calculate_file_hash local_path ;;
                   print (MsgLocalHash (str_prefix 16 h)) ;;
                   ret (Some h)
                 else ret None) ;;
  ret (local_path, local_hash).

Definition download_and_upload_file (filename temp_dir volume_name : string)
    (skip_verification : bool) : M error bool :=
  print (MsgProcessing filename) ;;
  try_except
    (local_path <- (emit (Fetch filename) ;;
                    fun m =>
                      let '(r, m1) :=
                        hf_hub_download env "kjj0/finewebedu10B-gpt2" filename
                          "dataset" temp_dir m in
                      (r, m1, [])) ;;
     print (MsgDownloaded filename local_path) ;;
     print MsgPreview ;;
     preview_binary_file local_path 10 ;;
     local_hash <- (if negb skip_verification then
                      h <- calculate_file_hash local_path ;;
                      print (MsgLocalHash (str_prefix 16 h)) ;;
                      ret (Some h)
                    else ret None) ;;
     let upload_cmd := upload_cmd_of volume_name local_path filename in
     r <- run_command upload_cmd ("Uploading " +:+ filename +:+ " to Modal volume") true ;;
     if truthy r then
       if skip_verification then
         os_remove local_path ;;
         print (MsgCleanedUp filename true) ;;
         ret true
       else
         print MsgVerifying ;;
         ok <- verify_modal_upload volume_name ("/" +:+ filename) local_hash temp_dir ;;
         if ok then
           os_remove local_path ;;
           print (MsgCleanedUp filename false) ;;
           ret true
         else
           print (MsgVerificationFailed filename) ;;
           ret false
     else
       print (MsgUploadFailed filename) ;;
       ret false)
    (fun e => print (MsgJobError filename e) ;; ret false).

(** *** main *)

(** Leaving [with tempfile.TemporaryDirectory()]: the directory goes,
    with all that is under it. *)
Definition under (dir path : string) : bool := startswith (dir +:+ "/") path.

Definition rmtree (dir : string) (m : Machine X) : Machine X :=
  Build_Machine (filter (fun kv => under dir (fst kv) = false) (fs m)) (ext m).

Definition with_TemporaryDirectory {A : Type} (body : string -> M exn A) : M exn A :=
  fun m =>
    match mkdtemp env m with
    | (inl e, m1) => (inl (Exc e), m1, [])
    | (inr temp_dir, m1) =>
        let '(r, m2, t) := body temp_dir m1 in (r, rmtree temp_dir m2, t)
    end.

(** [for i in range(1, num_chunks + 1)], on the indices left to visit
    and the two counters. *)
Fixpoint training_loop (temp_dir volume_name : string) (skip_verification : bool)
    (indices : list Z) (successful_uploads failed_uploads : Z) : M exn (Z * Z) :=
  match indices with
  | [] => ret (successful_uploads, failed_uploads)
  | i :: rest =>
      let filename := training_file i in
      ok <- lift (download_and_upload_file filename temp_dir volume_name
                    skip_verification) ;;
      let successful_uploads := if ok then successful_uploads + 1 else successful_uploads in
      let failed_uploads := if ok then failed_uploads else failed_uploads + 1 in
      print (MsgProgress successful_uploads failed_uploads) ;;
      training_loop temp_dir volume_name skip_verification rest
        successful_uploads failed_uploads
  end.

Definition main (args : Args) : M exn unit :=
  let volume_name := volume args in
  let num_chunks := chunks args in
  let skip_verification := skip_verification args in
  when skip_verification (print MsgVerificationDisabled) ;;
  r <- lift (run_command "modal --version" "Checking Modal CLI" false) ;;
  when (negb (truthy r)) (print MsgNoCli ;; sys_exit 1) ;;
  counts <- with_TemporaryDirectory (fun temp_dir =>
    print (MsgTempDir temp_dir) ;;
    print MsgValidationHeader ;;
    ok <- lift (download_and_upload_file validation_file temp_dir volume_name
                  skip_verification) ;;
    when (negb ok) (print MsgValidationFailed ;; sys_exit 1) ;;
    print MsgTrainingHeader ;;
    training_loop temp_dir volume_name skip_verification
      (range 1 (num_chunks + 1)) 0 0) ;;
  let successful_uploads := fst counts in
  let failed_uploads := snd counts in
  print MsgSummaryHeader ;;
  print (MsgUploaded (successful_uploads + 1)) ;;
  print (MsgFailedUploads failed_uploads) ;;
  if failed_uploads >? 0 then
    print (MsgSomeFailed failed_uploads) ;;
    sys_exit 1
  else
    print MsgAllUploaded.

(** The exit status of the process: 0 when [main] returns, the argument
    of [sys.exit], and 1 when an exception reaches the top. *)
Definition exit_status {A : Type} (r : exn + A) : Z :=
  match r with
  | inr _ => 0
  | inl (SystemExit code) => code
  | inl (Exc _) => 1
  end.

End Pipeline.

(** ** Reading traces *)

Definition execs (t : list Event) : list string :=
  omap (fun e => match e with Exec cmd => Some cmd | _ => None end) t.

Definition fetches (t : list Event) : list string :=
  omap (fun e => match e with Fetch f => Some f | _ => None end) t.

Definition opens (t : list Event) : list string :=
  omap (fun e => match e with Open p => Some p | _ => None end) t.

Definition removes (t : list Event) : list string :=
  omap (fun e => match e with Remove p => Some p | _ => None end) t.

(** The jobs started, by the line that opens each of them. *)
Definition processed (t : list Event) : list string :=
  omap (fun e => match e with Print (MsgProcessing f) => Some f | _ => None end) t.

(** The lines printed. *)
Definition printed (t : list Event) : list Message :=
  omap (fun e => match e with Print msg => Some msg | _ => None end) t.

(** What one job on [filename] may do after its opening line: fetch that
    file, put it in the volume and get it back, and nothing for another
    file. *)
Definition job_event (filename temp_dir volume_name : string) (e : Event) : Prop :=
  match e with
  | Fetch f => f = filename
  | Exec cmd =>
      (exists local_path, cmd = upload_cmd_of volume_name local_path filename)
      \/ cmd = download_cmd_of volume_name ("/" +:+ filename)
                 (verify_path_of temp_dir ("/" +:+ filename))
  | Print (MsgProcessing _) => False
  | _ => True
  end.

(** What a run that stops at the validation shard may do: check the
    tool, and work on the validation shard. *)
Definition validation_only (temp_dir volume_name : string) (e : Event) : Prop :=
  match e with
  | Fetch f => f = validation_file
  | Exec cmd =>
      cmd = "modal --version"
      \/ (exists local_path, cmd = upload_cmd_of volume_name local_path validation_file)
      \/ cmd = download_cmd_of volume_name ("/" +:+ validation_file)
                 (verify_path_of temp_dir ("/" +:+ validation_file))
  | Print (MsgProcessing f) => f = validation_file
  | _ => True
  end.

(** What a job may do when verification is skipped: no [get], and none of
    the lines about digests or verification. *)
Definition skip_event (e : Event) : Prop :=
  match e with
  | Exec cmd => startswith "modal volume get" cmd = false
  | Print (MsgLocalHash _) | Print MsgVerifying | Print (MsgHashPassed _)
  | Print (MsgHashMismatch _ _) | Print MsgNoRedownload | Print (MsgVerifyError _)
  | Print (MsgVerificationFailed _) => False
  | _ => True
  end.

(** The same collaborators with another digest function. *)
Definition with_digest {X : Type} (digest : list byte -> list byte) (env : Env X)
    : Env X := {|
  sha256 := digest;
  hf_hub_download := hf_hub_download env;
  spawn := spawn env;
  mkdtemp := mkdtemp env
|}.

(** ** The outcomes of a run *)

Section Outcomes.
Context {X : Type} (env : Env X).

(** The answers of the jobs for [files], run one after the other, each
    from the machine the one before left. *)
Fixpoint outcomes (temp_dir volume_name : string) (skip_verification : bool)
    (files : list string) (m : Machine X) : list bool :=
  match files with
  | [] => []
  | f :: rest =>
      let '(r, m1, _) :=
        download_and_upload_file env f temp_dir volume_name skip_verification m in
      match r with inr b => b | inl _ => false end
        :: outcomes temp_dir volume_name skip_verification rest m1
  end.

(** The pre-flight check: [modal --version] ran and [run_command]
    returned something true. *)
Definition capability_check (m : Machine X) : bool :=
  match run_command env "modal --version" "Checking Modal CLI" false m with
  | (inr r, _, _) => truthy r
  | (inl _, _, _) => false
  end.

(** The shards of a run, in the order of the script. *)
Definition shard_files (args : Args) : list string :=
  validation_file :: map training_file (range 1 (chunks args + 1)).

(** The outcome of every shard of a run whose pre-flight check passed and
    whose scratch directory could be made: the validation shard first;
    [None] when the run stops before its first job.  The outcomes of the
    training shards are those they have after the validation shard,
    whether the script goes on to them or not. *)
Definition run_outcomes (args : Args) (m : Machine X) : option (list bool) :=
  match run_command env "modal --version" "Checking Modal CLI" false m with
  | (inr r, m1, _) =>
      if truthy r then
        match mkdtemp env m1 with
        | (inr temp_dir, m2) =>
            Some (outcomes temp_dir (volume args) (skip_verification args)
                    (shard_files args) m2)
        | (inl _, _) => None
        end
      else None
  | (inl _, _, _) => None
  end.

(** A [put] that failed: the child could not be run, or exited with a
    code other than 0. *)
Definition put_failed (r : string * string + Completed) : Prop :=
  match r with
  | inl _ => True
  | inr p => returncode p <> 0
  end.

End Outcomes.

(** How many of the outcomes are [b]. *)
Definition tally (b : bool) (os : list bool) : Z :=
  Z.of_nat (length (filter (fun o => o = b) os)).

(** The six decimal digits of a number below a million. *)
Definition six_digits (i : Z) : string :=
  String (digit_char (i / 100000 mod 10))
    (String (digit_char (i / 10000 mod 10))
       (String (digit_char (i / 1000 mod 10))
          (String (digit_char (i / 100 mod 10))
             (String (digit_char (i / 10 mod 10))
                (String (digit_char (i mod 10)) ""))))).

(** ** A test double *)

(** A small world to run the script in: a hub and a volume that are maps
    from names to bytes, and a [modal] tool that copies between the volume
    and the local files.  Its switches make the tool absent, make every
    [put] fail, make it silent on success, or make the volume hand back
    altered bytes. *)
Module Stub.

Record Cloud := {
  hub : gmap string (list byte);
  vol : gmap string (list byte)
}.

Record Knobs := {
  cli_installed : bool;
  broken_put : bool;
  quiet_put : bool;
  corrupt_get : bool
}.

Fixpoint split_on (sep : ascii) (s cur : string) : list string :=
  match s with
  | EmptyString => [String.rev cur]
  | String c r =>
      if Ascii.eqb c sep then String.rev cur :: split_on sep r ""
      else split_on sep r (String c cur)
  end.

Definition words (s : string) : list string := split_on " " s "".

Definition byte_xor (a b : byte) : byte :=
  match Byte.of_N (N.lxor (Byte.to_N a) (Byte.to_N b)) with
  | Some c => c
  | None => x00
  end.

Definition mix (acc : list byte) (b : byte) : list byte :=
  byte_xor (List.last acc x00) b :: removelast acc.

(** 32 bytes that depend on every byte of the data. *)
Definition toy_digest (data : list byte) : list byte :=
  fold_left mix data (repeat x5c 32).

Definition exited (code : Z) (out err : string) : Completed :=
  {| returncode := code; stdout := out; stderr := err |}.

Definition flip_first (data : list byte) : list byte :=
  match data with
  | [] => [xff]
  | b :: r => byte_xor b xff :: r
  end.

Definition run (k : Knobs) (cmd : string) (m : Machine Cloud)
    : (string * string + Completed) * Machine Cloud :=
  match words cmd with
  | ["modal"; "--version"] =>
      if cli_installed k then (inr (exited 0 "modal client version: 1.1.0" ""), m)
      else (inr (exited 127 "" "modal: command not found"), m)
  | ["modal"; "volume"; "put"; _; local_path; remote_path] =>
      match (if broken_put k then None else fs m !! local_path) with
      | Some data =>
          (inr (exited 0 (if quiet_put k then "" else "uploaded") ""),
           Build_Machine (fs m)
             {| hub := hub (ext m); vol := <[remote_path := data]> (vol (ext m)) |})
      | None => (inr (exited 1 "" "upload failed"), m)
      end
  | ["modal"; "volume"; "get"; _; remote_path; local_path] =>
      match vol (ext m) !! remote_path with
      | Some data =>
          (inr (exited 0 "downloaded" ""),
           Build_Machine
             (<[local_path := if corrupt_get k then flip_first data else data]> (fs m))
             (ext m))
      | None => (inr (exited 1 "" "no such file in the volume"), m)
      end
  | _ => (inr (exited 127 "" "command not found"), m)
  end.

Definition fetch (repo_id filename repo_type local_dir : string) (m : Machine Cloud)
    : (error + string) * Machine Cloud :=
  match hub (ext m) !! filename with
  | Some data =>
      let local_path := os_path_join local_dir filename in
      (inr local_path, Build_Machine (<[local_path := data]> (fs m)) (ext m))
  | None => (inl (PyError "EntryNotFoundError" filename), m)
  end.

Definition env (k : Knobs) : Env Cloud := {|
  sha256 := toy_digest;
  hf_hub_download := fetch;
  spawn := run k;
  mkdtemp := fun m => (inr "/tmp/tmpq0w1", m)
|}.

Definition honest : Knobs :=
  {| cli_installed := true; broken_put := false; quiet_put := false;
     corrupt_get := false |}.
Definition silent : Knobs :=
  {| cli_installed := true; broken_put := false; quiet_put := true;
     corrupt_get := false |}.
Definition corrupting : Knobs :=
  {| cli_installed := true; broken_put := false; quiet_put := false;
     corrupt_get := true |}.
Definition refusing : Knobs :=
  {| cli_installed := true; broken_put := true; quiet_put := false;
     corrupt_get := false |}.
Definition no_cli : Knobs :=
  {| cli_installed := false; broken_put := false; quiet_put := false;
     corrupt_get := false |}.

Definition shard_a : list byte := [x01; x00; x02; x00; xff; xff; x10].
Definition shard_b : list byte := [x2a; x00].

(** A hub that holds the validation shard and the training shards of
    the given indices. *)
Definition hub_with (shards : list Z) : gmap string (list byte) :=
  <[validation_file := shard_a]>
    (list_to_map (map (fun i => (training_file i, shard_b)) shards)).

Definition ext_of (shards : list Z) : Cloud :=
  {| hub := hub_with shards; vol := ∅ |}.

(** The machine before the script starts: no local file, an empty
    volume. *)
Definition boot (shards : list Z) : Machine Cloud :=
  Build_Machine ∅ (ext_of shards).

(** [--chunks 2], the other arguments at their defaults. *)
Definition two_chunks : Args :=
  {| volume := "fineweb-volume"; chunks := 2; skip_verification := false |}.

Definition scratch : string := "/tmp/tmpq0w1".

(** [--skip-verification --chunks 2]. *)
Definition two_chunks_unverified : Args :=
  {| volume := "fineweb-volume"; chunks := 2; skip_verification := true |}.

(** [--chunks 0]. *)
Definition no_chunks : Args :=
  {| volume := "fineweb-volume"; chunks := 0; skip_verification := false |}.

(** A hub client that answers with a path at which it leaves nothing. *)
Definition forgetful_fetch (repo_id filename repo_type local_dir : string)
    (m : Machine Cloud) : (error + string) * Machine Cloud :=
  (inr (os_path_join local_dir filename), m).

(** The collaborators with that hub client. *)
Definition forgetful : Env Cloud := {|
  sha256 := toy_digest;
  hf_hub_download := forgetful_fetch;
  spawn := run honest;
  mkdtemp := fun m => (inr "/tmp/tmpq0w1", m)
|}.

(** A shell that cannot run anything. *)
Definition no_shell : Env Cloud := {|
  sha256 := toy_digest;
  hf_hub_download := fetch;
  spawn := fun cmd m => (inl ("OSError", "cannot allocate memory"), m);
  mkdtemp := fun m => (inr "/tmp/tmpq0w1", m)
|}.

(** Where the fetched validation shard is, and a machine that holds it. *)
Definition fetched : string := "/tmp/tmpq0w1/finewebedu_val_000000.bin".

Definition staged : Machine Cloud :=
  Build_Machine {[ fetched := shard_a ]} (ext_of []).

(** The same machine once the shard is in the volume. *)
Definition uploaded : Machine Cloud :=
  Build_Machine {[ fetched := shard_a ]}
    {| hub := hub_with []; vol := {[ "/finewebedu_val_000000.bin" := shard_a ]} |}.

(** A machine with nothing local and the shard in the volume. *)
Definition remote_only : Machine Cloud :=
  Build_Machine ∅ {| hub := ∅; vol := {[ "/finewebedu_val_000000.bin" := shard_a ]} |}.

(** Two machines that hold the same bytes under different names. *)
Definition one_copy : Machine Cloud :=
  Build_Machine {[ "/tmp/a.bin" := shard_a ]} (ext_of []).

Definition other_copy : Machine Cloud :=
  Build_Machine {[ "/srv/copy" := shard_a; "/srv/other" := shard_b ]} (ext_of [1]).

End Stub.

(** ** Facts about the pieces *)

(** Case analysis on what some [match] of the goal looks at. *)
Ltac case_scrutinee :=
  match goal with
  | |- context [match ?x with _ => _ end] => case x; intros
  end.

Section Facts.
Context {X : Type} (env : Env X).

Implicit Types (m : Machine X) (t : list Event).

(** [run_command] in one equation: what it returns is decided by how
    the child ends. *)
Lemma run_command_run cmd description show_progress m :
  run_command env cmd description show_progress m =
    let pre := if show_progress then [Print (MsgRunning description)] else [] in
    match spawn env cmd m with
    | (inl (cls, msg), m1) => (inl (PyError cls msg), m1, pre ++ [Exec cmd])
    | (inr p, m1) =>
        if returncode p =? 0 then
          (inr (Some (stdout p)), m1,
           pre ++ Exec cmd ::
             (if show_progress then [Print (MsgCompleted description)] else []))
        else
          (inr None, m1,
           pre ++ [Exec cmd;
                   Print (MsgCommandFailed description
                            (CalledProcessError (returncode p) cmd (stdout p) (stderr p)));
                   Print (MsgErrorOutput (stderr p))])
    end.
Proof.
  unfold run_command, subprocess_run_check, child, when, print, emit, bind,
    try_except, ret, raise.
  destruct show_progress; destruct (spawn env cmd m) as [[[cls msg]|p] m1];
    simpl; try reflexivity; destruct (returncode p =? 0); reflexivity.
Qed.

Lemma calculate_file_hash_run path m :
  calculate_file_hash env path m =
    match fs m !! path with
    | Some data => (inr (stream_hexdigest (sha256 env) 4096 data), m, [Open path])
    | None => (inl (FileNotFoundError path), m, [])
    end.
Proof.
  unfold calculate_file_hash, os_path_getsize, open_rb, bind, ret.
  destruct (fs m !! path) as [data|] eqn:E; simpl; [rewrite E|]; reflexivity.
Qed.

(** The chunks of the read loop, fed one after the other, are the file. *)
Lemma read_blocks_all block rest h :
  (0 < block)%nat -> read_blocks block rest h = h ++ rest.
Proof.
  intros Hb. funelim (read_blocks block rest h).
  - destruct block; [lia|]. destruct rest; [|discriminate].
    now rewrite List.app_nil_r.
  - rewrite H by assumption. unfold hashlib.update.
    rewrite <- e, <- app_assoc. now rewrite take_drop.
Qed.

Lemma length_hexlify (bs : list byte) :
  String.length (hexlify bs) = (2 * length bs)%nat.
Proof. induction bs as [|b r IH]; simpl; [reflexivity | rewrite IH; lia]. Qed.

Lemma all_hex_hexlify (bs : list byte) : all_hex (hexlify bs) = true.
Proof.
  induction bs as [|b r IH]; [reflexivity|].
  cbn [hexlify all_hex]. rewrite IH. destruct b; reflexivity.
Qed.

(** [verify_modal_upload] in one equation, by how the re-download ends
    and what it leaves at the verification path. *)
Lemma verify_modal_upload_run volume_name remote_path local_hash temp_dir m :
  verify_modal_upload env volume_name remote_path local_hash temp_dir m =
    let vp := verify_path_of temp_dir remote_path in
    let cmd := download_cmd_of volume_name remote_path vp in
    match spawn env cmd m with
    | (inl (cls, msg), m1) =>
        (inr false, m1, [Exec cmd; Print (MsgVerifyError (PyError cls msg))])
    | (inr p, m1) =>
        if returncode p =? 0 then
          if String.eqb (stdout p) "" then
            (inr false, m1, [Exec cmd; Print MsgNoRedownload])
          else
            match fs m1 !! vp with
            | None =>
                (inr false, m1,
                 [Exec cmd; Print (MsgVerifyError (FileNotFoundError vp))])
            | Some data =>
                let modal_hash := stream_hexdigest (sha256 env) 4096 data in
                let m2 := Build_Machine (delete vp (fs m1)) (ext m1) in
                match local_hash with
                | Some h =>
                    if decide (h = modal_hash) then
                      (inr true, m2,
                       [Exec cmd; Open vp; Remove vp;
                        Print (MsgHashPassed (str_prefix 16 h))])
                    else
                      (inr false, m2,
                       [Exec cmd; Open vp; Remove vp;
                        Print (MsgHashMismatch (str_prefix 16 h)
                                 (str_prefix 16 modal_hash))])
                | None =>
                    (inr false, m2,
                     [Exec cmd; Open vp; Remove vp;
                      Print (MsgVerifyError
                               (PyError "TypeError"
                                  "'NoneType' object is not subscriptable"))])
                end
            end
        else
          (inr false, m1,
           [Exec cmd;
            Print (MsgCommandFailed
                     ("Downloading " +:+ remote_path +:+ " for verification")
                     (CalledProcessError (returncode p) cmd (stdout p) (stderr p)));
            Print (MsgErrorOutput (stderr p));
            Print MsgNoRedownload])
    end.
Proof.
  unfold verify_modal_upload, try_except, bind at 1.
  rewrite run_command_run. cbv zeta.
  destruct (spawn env _ m) as [[[cls msg]|p] m1]; [reflexivity|].
  destruct (returncode p =? 0); [|reflexivity].
  unfold truthy. destruct (String.eqb (stdout p) ""); [reflexivity|].
  cbn [negb app]. unfold bind at 1. rewrite calculate_file_hash_run.
  destruct (fs m1 !! _) as [data|] eqn:E; [|reflexivity].
  unfold bind at 1, os_remove. rewrite E.
  destruct local_hash as [h|].
  - destruct (decide (Some h = Some _)) as [Heq|Hne].
    + injection Heq as Heq. destruct (decide (h = _)); [reflexivity|contradiction].
    + destruct (decide (h = _)) as [Heq|]; [subst; contradiction|reflexivity].
  - destruct (decide (None = Some _)); [discriminate|reflexivity].
Qed.

Lemma preview_binary_file_run path num_tokens m :
  exists t, preview_binary_file path num_tokens m = (inr tt, m, Open path :: t)
            /\ Forall (fun e => exists msg, e = Print msg /\
                                forall f, msg <> MsgProcessing f) t.
Proof.
  unfold preview_binary_file, try_except, bind, open_rb, print, emit.
  destruct (fs m !! path) as [content|]; simpl; eexists; (split; [reflexivity|]);
    repeat constructor; eexists; (split; [reflexivity | discriminate]).
Qed.

(** The fetch, the preview and the local digest, by what the hub client
    answers and leaves behind. *)
Lemma fetch_and_hash_run filename temp_dir skip m :
  exists t,
    Forall (fun e => exists msg, e = Print msg /\ forall f, msg <> MsgProcessing f) t /\
    fetch_and_hash env filename temp_dir skip m =
      match hf_hub_download env "kjj0/finewebedu10B-gpt2" filename "dataset" temp_dir m with
      | (inl e, m1) => (inl e, m1, [Fetch filename])
      | (inr local_path, m1) =>
          let head :=
            Fetch filename :: Print (MsgDownloaded filename local_path) ::
            Print MsgPreview :: Open local_path :: t in
          if skip then (inr (local_path, None), m1, head)
          else
            match fs m1 !! local_path with
            | Some data =>
                let h := stream_hexdigest (sha256 env) 4096 data in
                (inr (local_path, Some h), m1,
                 head ++ [Open local_path; Print (MsgLocalHash (str_prefix 16 h))])
            | None => (inl (FileNotFoundError local_path), m1, head)
            end
      end.
Proof.
  unfold fetch_and_hash, bind at 1. unfold bind at 1, emit.
  destruct (hf_hub_download env _ filename _ temp_dir m) as [[e|local_path] m1] eqn:Hf.
  - exists []. split; [constructor|reflexivity].
  - unfold bind at 1, print at 1, emit. unfold bind at 1, print at 1, emit.
    unfold bind at 1.
    destruct (preview_binary_file_run local_path 10 m1) as (t & Hp & Ht).
    exists t. split; [assumption|]. rewrite Hp.
    destruct skip; cbn [negb].
    + unfold bind, ret. cbn. rewrite List.app_nil_r. reflexivity.
    + unfold bind at 1. unfold bind at 1. rewrite calculate_file_hash_run.
      destruct (fs m1 !! local_path) as [data|].
      * unfold bind, print, emit, ret. cbn. reflexivity.
      * cbn. rewrite ?List.app_nil_r. reflexivity.
Qed.

(** The upload and its verification, by how the [put] ends. *)
Lemma upload_and_verify_run filename temp_dir volume_name skip local_path local_hash m :
  upload_and_verify env filename temp_dir volume_name skip local_path local_hash m =
    let cmd := upload_cmd_of volume_name local_path filename in
    let d := "Uploading " +:+ filename +:+ " to Modal volume" in
    match spawn env cmd m with
    | (inl (cls, msg), m1) =>
        (inl (PyError cls msg), m1, [Print (MsgRunning d); Exec cmd])
    | (inr p, m1) =>
        if returncode p =? 0 then
          let pre := [Print (MsgRunning d); Exec cmd; Print (MsgCompleted d)] in
          if String.eqb (stdout p) "" then
            (inr false, m1, pre ++ [Print (MsgUploadFailed filename)])
          else if skip then
            match fs m1 !! local_path with
            | Some _ =>
                (inr true, Build_Machine (delete local_path (fs m1)) (ext m1),
                 pre ++ [Remove local_path; Print (MsgCleanedUp filename true)])
            | None =>
                (inl (FileNotFoundError local_path), m1, pre ++ [Remove local_path])
            end
          else
            match verify_modal_upload env volume_name ("/" +:+ filename)
                    local_hash temp_dir m1 with
            | (inr true, m2, t) =>
                match fs m2 !! local_path with
                | Some _ =>
                    (inr true, Build_Machine (delete local_path (fs m2)) (ext m2),
                     pre ++ Print MsgVerifying :: t
                       ++ [Remove local_path; Print (MsgCleanedUp filename false)])
                | None =>
                    (inl (FileNotFoundError local_path), m2,
                     pre ++ Print MsgVerifying :: t ++ [Remove local_path])
                end
            | (inr false, m2, t) =>
                (inr false, m2,
                 pre ++ Print MsgVerifying :: t
                   ++ [Print (MsgVerificationFailed filename)])
            | (inl e, m2, t) => (inl e, m2, pre ++ Print MsgVerifying :: t)
            end
        else
          (inr false, m1,
           [Print (MsgRunning d); Exec cmd;
            Print (MsgCommandFailed d
                     (CalledProcessError (returncode p) cmd (stdout p) (stderr p)));
            Print (MsgErrorOutput (stderr p));
            Print (MsgUploadFailed filename)])
    end.
Proof.
  unfold upload_and_verify, bind at 1.
  rewrite run_command_run. cbv zeta.
  destruct (spawn env _ m) as [[[cls msg]|p] m1]; [reflexivity|].
  destruct (returncode p =? 0); [|reflexivity].
  unfold truthy. destruct (String.eqb (stdout p) ""); [reflexivity|].
  cbn [negb]. destruct skip.
  - unfold bind, os_remove, print, emit, ret.
    destruct (fs m1 !! local_path); reflexivity.
  - unfold bind at 1, print at 1, emit. unfold bind at 1.
    destruct (verify_modal_upload env _ _ _ _ m1) as [[[e|[|]] m2] t].
    + cbn. rewrite ?List.app_nil_r. reflexivity.
    + unfold bind, os_remove, print, emit, ret.
      destruct (fs m2 !! local_path); cbn; rewrite ?List.app_nil_r; reflexivity.
    + unfold bind, print, emit, ret. cbn. reflexivity.
Qed.

(** [verify_modal_upload] catches everything: it always returns. *)
Lemma verify_modal_upload_returns volume_name remote_path local_hash temp_dir m :
  exists b m2 t,
    verify_modal_upload env volume_name remote_path local_hash temp_dir m
    = (inr b, m2, t).
Proof.
  rewrite verify_modal_upload_run. cbv zeta.
  repeat case_scrutinee; eauto.
Qed.

Lemma commentary_job_event filename temp_dir volume_name t :
  Forall (fun e => exists msg, e = Print msg /\ forall f, msg <> MsgProcessing f) t ->
  Forall (job_event filename temp_dir volume_name) t.
Proof.
  induction 1 as [|e t (msg & -> & Hmsg) _ IH]; constructor; [|exact IH].
  destruct msg; simpl; try exact I. eapply Hmsg; reflexivity.
Qed.

Lemma bind_assoc {E A B C : Type} (c : @M X E A) (k : A -> @M X E B)
    (k' : B -> @M X E C) m :
  bind (bind c k) k' m = bind c (fun a => bind (k a) k') m.
Proof.
  unfold bind. destruct (c m) as [[[e|a] m1] t1]; [reflexivity|].
  destruct (k a m1) as [[[e|b] m2] t2]; [reflexivity|].
  destruct (k' b m2) as [[r m3] t3]. rewrite List.app_assoc. reflexivity.
Qed.

Lemma bind_ext {E A B : Type} (c : @M X E A) (k k' : A -> @M X E B) m :
  (forall a m', k a m' = k' a m') -> bind c k m = bind c k' m.
Proof.
  intros H. unfold bind. destruct (c m) as [[[e|a] m1] t1]; [reflexivity|].
  rewrite H. reflexivity.
Qed.

Lemma bind_ret {E A B : Type} (a : A) (k : A -> @M X E B) m :
  bind (ret a) k m = k a m.
Proof. unfold bind, ret. destruct (k a m) as [[r m2] t2]. reflexivity. Qed.

(** The job is its opening line, then the two blocks in one [try]. *)
Lemma download_and_upload_file_split filename temp_dir volume_name skip m :
  download_and_upload_file env filename temp_dir volume_name skip m
  = (print (MsgProcessing filename) ;;
     try_except
       (lh <- fetch_and_hash env filename temp_dir skip ;;
        upload_and_verify env filename temp_dir volume_name skip (fst lh) (snd lh))
       (fun e => print (MsgJobError filename e) ;; ret false)) m.
Proof.
  unfold download_and_upload_file. apply bind_ext. intros _ m0.
  unfold try_except.
  match goal with
  | |- match ?a with _ => _ end = match ?b with _ => _ end =>
      replace b with a; [reflexivity|]
  end.
  symmetry. unfold fetch_and_hash.
  rewrite bind_assoc. apply bind_ext. intros local_path m1.
  rewrite bind_assoc. apply bind_ext. intros _ m2.
  rewrite bind_assoc. apply bind_ext. intros _ m3.
  rewrite bind_assoc. apply bind_ext. intros _ m4.
  rewrite bind_assoc. apply bind_ext. intros local_hash m5.
  rewrite bind_ret. reflexivity.
Qed.

(** The whole job, by its two halves: the error of either half becomes
    the answer [False]. *)
Lemma download_and_upload_file_run filename temp_dir volume_name skip m :
  download_and_upload_file env filename temp_dir volume_name skip m =
    match fetch_and_hash env filename temp_dir skip m with
    | (inl e, m1, t1) =>
        (inr false, m1,
         Print (MsgProcessing filename) :: t1 ++ [Print (MsgJobError filename e)])
    | (inr (local_path, local_hash), m1, t1) =>
        match upload_and_verify env filename temp_dir volume_name skip
                local_path local_hash m1 with
        | (inl e, m2, t2) =>
            (inr false, m2,
             Print (MsgProcessing filename) :: (t1 ++ t2)
               ++ [Print (MsgJobError filename e)])
        | (inr b, m2, t2) =>
            (inr b, m2, Print (MsgProcessing filename) :: t1 ++ t2)
        end
    end.
Proof.
  rewrite download_and_upload_file_split.
  unfold bind at 1, print at 1, emit, try_except.
  unfold bind at 1.
  destruct (fetch_and_hash env filename temp_dir skip m) as [[[e|[lp lh]] m1] t1].
  - reflexivity.
  - cbn [fst snd].
    destruct (upload_and_verify env _ _ _ _ lp lh m1) as [[[e|b] m2] t2]; reflexivity.
Qed.

Ltac job_events :=
  repeat first
    [ assumption
    | apply Forall_nil_2
    | apply List.Forall_cons
    | apply Forall_app_2
    | exact I
    | reflexivity
    | left; eexists; reflexivity
    | right; reflexivity
    | progress cbn [job_event] ].

Lemma verify_modal_upload_events filename temp_dir volume_name local_hash m :
  Forall (job_event filename temp_dir volume_name)
    (snd (verify_modal_upload env volume_name ("/" +:+ filename) local_hash temp_dir m)).
Proof.
  rewrite verify_modal_upload_run. cbv zeta.
  repeat case_scrutinee; cbn [snd]; job_events.
Qed.

Lemma upload_and_verify_events filename temp_dir volume_name skip local_path local_hash m :
  Forall (job_event filename temp_dir volume_name)
    (snd (upload_and_verify env filename temp_dir volume_name skip
            local_path local_hash m)).
Proof.
  rewrite upload_and_verify_run. cbv zeta.
  pose proof (verify_modal_upload_events filename temp_dir volume_name local_hash) as Hv.
  repeat case_match; cbn [snd];
    try match goal with
        | H : verify_modal_upload _ _ _ _ _ ?m1 = _ |- _ =>
            specialize (Hv m1); rewrite H in Hv; cbn [snd] in Hv
        end;
    job_events.
Qed.

Lemma fetch_and_hash_events filename temp_dir volume_name skip m :
  Forall (job_event filename temp_dir volume_name)
    (snd (fetch_and_hash env filename temp_dir skip m)).
Proof.
  destruct (fetch_and_hash_run filename temp_dir skip m) as (t & Ht & ->).
  apply (commentary_job_event filename temp_dir volume_name) in Ht.
  repeat case_match; cbn [snd]; job_events.
Qed.

(** A job always returns, opens with its own line, and touches no other
    file than its own. *)
Lemma download_and_upload_file_returns filename temp_dir volume_name skip m :
  exists b m' t,
    download_and_upload_file env filename temp_dir volume_name skip m
    = (inr b, m', Print (MsgProcessing filename) :: t)
    /\ Forall (job_event filename temp_dir volume_name) t.
Proof.
  rewrite download_and_upload_file_run.
  pose proof (fetch_and_hash_events filename temp_dir volume_name skip m) as Hf.
  destruct (fetch_and_hash env filename temp_dir skip m) as [[[e|[lp lh]] m1] t1];
    cbn [snd] in Hf.
  - do 3 eexists. split; [reflexivity|]. job_events.
  - pose proof (upload_and_verify_events filename temp_dir volume_name skip lp lh m1) as Hu.
    destruct (upload_and_verify env _ _ _ _ lp lh m1) as [[[e|b] m2] t2];
      cbn [snd] in Hu; do 3 eexists; (split; [reflexivity|]); job_events.
Qed.

(** *** The loop over the training shards *)

Lemma processed_app t1 t2 : processed (t1 ++ t2) = processed t1 ++ processed t2.
Proof. apply omap_app. Qed.

Lemma processed_opening f t :
  processed (Print (MsgProcessing f) :: t) = f :: processed t.
Proof. reflexivity. Qed.

Lemma processed_job_events filename temp_dir volume_name t :
  Forall (job_event filename temp_dir volume_name) t -> processed t = [].
Proof.
  induction 1 as [|e t He _ IH]; [reflexivity|].
  destruct e as [| | | |msg]; try exact IH.
  destruct msg; try exact IH. destruct He.
Qed.

Lemma tally_cons b o os :
  tally b (o :: os) = (if decide (o = b) then 1 else 0) + tally b os.
Proof.
  unfold tally. rewrite filter_cons.
  destruct (decide (o = b)); cbn [length]; lia.
Qed.

(** The loop never stops early: it visits every index, and its counters
    count the outcomes. *)
Lemma training_loop_run temp_dir volume_name skip indices s f m :
  let os := outcomes env temp_dir volume_name skip (map training_file indices) m in
  exists m' t,
    training_loop env temp_dir volume_name skip indices s f m
    = (inr (s + tally true os, f + tally false os), m', t)
    /\ processed t = map training_file indices.
Proof.
  revert s f m. induction indices as [|i rest IH]; intros s f m.
  - cbn. exists m, []. split; [|reflexivity].
    unfold ret, tally. cbn. rewrite !Z.add_0_r. reflexivity.
  - cbn [map outcomes training_loop].
    destruct (download_and_upload_file_returns (training_file i) temp_dir
                volume_name skip m) as (b & m1 & t1 & Hjob & Hev).
    unfold bind at 1, lift. rewrite Hjob.
    unfold bind at 1, print at 1, emit.
    destruct (IH (if b then s + 1 else s) (if b then f else f + 1) m1)
      as (m' & t' & Hloop & Hproc).
    rewrite Hloop. rewrite !tally_cons.
    exists m',
      ((Print (MsgProcessing (training_file i)) :: t1)
         ++ [Print (MsgProgress (if b then s + 1 else s) (if b then f else f + 1))]
         ++ t').
    split.
    + destruct b; simpl decide; cbv iota;
        rewrite ?Z.add_0_l, <- ?Z.add_assoc; reflexivity.
    + rewrite !processed_app, processed_opening.
      rewrite (processed_job_events _ _ _ _ Hev), Hproc. reflexivity.
Qed.

(** *** main *)

(** [main] by its stages. *)
Lemma main_run args m :
  main env args m =
    let pre := if skip_verification args then [Print MsgVerificationDisabled] else [] in
    match run_command env "modal --version" "Checking Modal CLI" false m with
    | (inl e, m1, t1) => (inl (Exc e), m1, pre ++ t1)
    | (inr r, m1, t1) =>
        if truthy r then
          match mkdtemp env m1 with
          | (inl e, m2) => (inl (Exc e), m2, pre ++ t1)
          | (inr temp_dir, m2) =>
              let head :=
                pre ++ t1 ++ [Print (MsgTempDir temp_dir); Print MsgValidationHeader] in
              match download_and_upload_file env validation_file temp_dir
                      (volume args) (skip_verification args) m2 with
              | (inl e, m3, t3) => (inl (Exc e), rmtree temp_dir m3, head ++ t3)
              | (inr false, m3, t3) =>
                  (inl (SystemExit 1), rmtree temp_dir m3,
                   head ++ t3 ++ [Print MsgValidationFailed])
              | (inr true, m3, t3) =>
                  match training_loop env temp_dir (volume args)
                          (skip_verification args)
                          (range 1 (chunks args + 1)) 0 0 m3 with
                  | (inl x, m4, t4) =>
                      (inl x, rmtree temp_dir m4,
                       head ++ t3 ++ Print MsgTrainingHeader :: t4)
                  | (inr (s, f), m4, t4) =>
                      let body :=
                        head ++ t3 ++ Print MsgTrainingHeader :: t4
                          ++ [Print MsgSummaryHeader; Print (MsgUploaded (s + 1));
                              Print (MsgFailedUploads f)] in
                      if f >? 0 then
                        (inl (SystemExit 1), rmtree temp_dir m4,
                         body ++ [Print (MsgSomeFailed f)])
                      else (inr tt, rmtree temp_dir m4, body ++ [Print MsgAllUploaded])
                  end
              end
          end
        else (inl (SystemExit 1), m1, pre ++ t1 ++ [Print MsgNoCli])
    end.
Proof.
  unfold main. cbv zeta.
  set (cli := run_command env _ _ false).
  set (val := download_and_upload_file env validation_file).
  set (loop := training_loop env).
  unfold bind at 1, when at 1.
  assert (Hpre : forall k : unit -> M exn unit,
             (let '(r, m2, t2) := k tt m in
              (r, m2, (if skip_verification args
                       then [Print MsgVerificationDisabled] else []) ++ t2))
             = match (if skip_verification args
                      then print MsgVerificationDisabled else ret tt) m with
               | (inr a, m1, t1) => let '(r, m2, t2) := k a m1 in (r, m2, t1 ++ t2)
               | (inl e, m1, t1) => (inl e, m1, t1)
               end).
  { intros k. destruct (skip_verification args); reflexivity. }
  rewrite <- Hpre. clear Hpre.
  unfold bind at 1, lift.
  destruct (cli m) as [[[e|r] m1] t1]; [reflexivity|].
  unfold bind at 1, when at 1.
  destruct (truthy r); cbn [negb].
  2:{ unfold bind, print, emit, sys_exit, raise. cbn.
      rewrite ?List.app_nil_r. reflexivity. }
  unfold ret at 1. cbn [app]. unfold bind at 1, with_TemporaryDirectory.
  destruct (mkdtemp env m1) as [[e|temp_dir] m2].
  { cbn. rewrite ?List.app_nil_r. reflexivity. }
  unfold bind at 1, print at 1, emit. unfold bind at 1, print at 1, emit.
  unfold bind at 1, lift.
  destruct (val temp_dir (volume args) (skip_verification args) m2)
    as [[[e|[|]] m3] t3].
  - cbn. rewrite ?List.app_nil_r, <- ?List.app_assoc. reflexivity.
  - cbn [negb]. unfold bind at 1, when at 1, ret at 1.
    unfold bind at 1, print at 1, emit.
    destruct (loop temp_dir (volume args) (skip_verification args) _ 0 0 m3)
      as [[[x|[s f]] m4] t4].
    + cbn. rewrite ?List.app_nil_r, <- ?List.app_assoc. reflexivity.
    + cbn [fst snd app]. unfold bind at 1, print at 1, emit.
      unfold bind at 1, print at 1, emit. unfold bind at 1, print at 1, emit.
      destruct (f >? 0); unfold bind, print, emit, sys_exit, raise; cbn;
        rewrite ?List.app_nil_r, <- ?List.app_assoc; cbn;
        rewrite <- ?List.app_assoc; reflexivity.
  - cbn [negb]. unfold bind, when, print, emit, sys_exit, raise. cbn.
    rewrite ?List.app_nil_r, <- ?List.app_assoc. reflexivity.
Qed.

End Facts.

(** ** The properties of the specification *)

Section Hasher.
Context {X : Type} (env : Env X).

Lemma block_4096_positive : (0 < 4096)%nat.
Proof. apply Nat.ltb_lt. vm_compute. reflexivity. Qed.

Lemma stream_hexdigest_whole digest block data :
  (0 < block)%nat -> stream_hexdigest digest block data = hexlify (digest data).
Proof.
  intros Hb. unfold stream_hexdigest, hashlib.hexdigest.
  rewrite read_blocks_all by assumption. reflexivity.
Qed.

(** C8. The digest of a file is a function of its bytes alone: two
    files with the same bytes, on any machines, have the same digest; it
    is the digest of the whole content whatever positive block size the
    file is read with (the script reads 4096 bytes at a time); and, the
    hash being 32 bytes long, it is a string of 64 hexadecimal digits. *)
Theorem digest_deterministic_and_block_independent
    (block : nat) (path1 path2 : string) (m1 m2 : Machine X) (data : list byte) :
  (0 < block)%nat ->
  fs m1 !! path1 = Some data ->
  fs m2 !! path2 = Some data ->
  length (sha256 env data) = 32%nat ->
  let d := hexlify (sha256 env data) in
  calculate_file_hash env path1 m1 = (inr d, m1, [Open path1])
  /\ calculate_file_hash env path2 m2 = (inr d, m2, [Open path2])
  /\ stream_hexdigest (sha256 env) block data = d
  /\ stream_hexdigest (sha256 env) block data = stream_hexdigest (sha256 env) 4096 data
  /\ String.length d = 64%nat
  /\ all_hex d = true.
Proof.
  intros Hb H1 H2 Hlen d.
  rewrite !calculate_file_hash_run, H1, H2.
  rewrite !stream_hexdigest_whole by (assumption || apply block_4096_positive).
  repeat split.
  - unfold d. rewrite length_hexlify, Hlen. reflexivity.
  - apply all_hex_hexlify.
Qed.

End Hasher.

Lemma digest_deterministic_and_block_independent_witness :
  stream_hexdigest Stub.toy_digest 3 Stub.shard_a
  = stream_hexdigest Stub.toy_digest 4096 Stub.shard_a
  /\ fst (fst (calculate_file_hash (Stub.env Stub.honest) "/tmp/a.bin" Stub.one_copy))
     = fst (fst (calculate_file_hash (Stub.env Stub.honest) "/srv/copy" Stub.other_copy)).
Proof.
  destruct (digest_deterministic_and_block_independent (Stub.env Stub.honest)
              3 "/tmp/a.bin" "/srv/copy" Stub.one_copy Stub.other_copy Stub.shard_a)
    as (H1 & H2 & _ & H4 & _); try (vm_compute; reflexivity); [lia|].
  split; [exact H4|]. rewrite H1, H2. reflexivity.
Defined.

Section Transfer.
Context {X : Type} (env : Env X).

Implicit Types (m : Machine X) (t : list Event).

Lemma hex_char_inj (a b : N) :
  (a < 16)%N -> (b < 16)%N -> hex_char a = hex_char b -> a = b.
Proof.
  intros Ha Hb H. apply (f_equal N_of_ascii) in H. unfold hex_char in H.
  destruct (N.ltb_spec a 10), (N.ltb_spec b 10);
    rewrite !N_ascii_embedding in H by lia; lia.
Qed.

Lemma hexlify_inj (a b : list byte) : hexlify a = hexlify b -> a = b.
Proof.
  revert b. induction a as [|x a IH]; intros [|y b] H; try discriminate;
    [reflexivity|].
  cbn [hexlify] in H. injection H as Hhi Hlo Hrest.
  pose proof (Byte.to_N_bounded x). pose proof (Byte.to_N_bounded y).
  apply hex_char_inj in Hhi;
    [|apply N.Div0.div_lt_upper_bound; lia|apply N.Div0.div_lt_upper_bound; lia].
  apply hex_char_inj in Hlo; [|apply N.mod_lt; lia|apply N.mod_lt; lia].
  assert (Hxy : Byte.to_N x = Byte.to_N y).
  { rewrite (N.div_mod (Byte.to_N x) 16), (N.div_mod (Byte.to_N y) 16) by lia.
    congruence. }
  f_equal; [|apply IH; assumption].
  apply (f_equal Byte.of_N) in Hxy. rewrite !Byte.of_to_N in Hxy. congruence.
Qed.

(** C7. Whenever a verification takes the digest of the re-downloaded
    copy (it opens the copy), what it does is exactly: run the [get],
    read the copy, remove it, and only then print the verdict of the
    comparison; it returns the verdict, whichever it is, and the copy is
    gone from the machine it leaves. *)
Theorem redownloaded_copy_removed_after_digest
    (volume_name remote_path temp_dir : string) (local_hash : option string)
    (m mf : Machine X) (res : error + bool) (t : list Event) :
  let vp := verify_path_of temp_dir remote_path in
  verify_modal_upload env volume_name remote_path local_hash temp_dir m = (res, mf, t) ->
  In (Open vp) t ->
  (exists verdict,
      t = [Exec (download_cmd_of volume_name remote_path vp); Open vp; Remove vp;
           Print verdict])
  /\ (exists b, res = inr b)
  /\ fs mf !! vp = None.
Proof.
  intros vp H Hopen. revert H. rewrite verify_modal_upload_run. cbv zeta.
  fold vp.
  repeat (case_scrutinee;
          try match goal with H : _ = (res, mf, t) |- _ => revert H end);
    intros H; inversion H; subst; clear H;
    try (cbn in Hopen; intuition discriminate);
    (split; [eexists; reflexivity|]); (split; [eexists; reflexivity|]);
    cbn [fs]; apply lookup_delete_eq.
Qed.

Lemma execs_app t1 t2 : execs (t1 ++ t2) = execs t1 ++ execs t2.
Proof. apply omap_app. Qed.

Lemma removes_app t1 t2 : removes (t1 ++ t2) = removes t1 ++ removes t2.
Proof. apply omap_app. Qed.

Lemma commentary_quiet t :
  Forall (fun e => exists msg, e = Print msg /\ forall f, msg <> MsgProcessing f) t ->
  execs t = [] /\ removes t = [].
Proof.
  induction 1 as [|e t (msg & -> & _) _ IH]; [split; reflexivity | exact IH].
Qed.

(** Fetching and hashing start no command and remove no file. *)
Lemma fetch_and_hash_quiet filename temp_dir skip m :
  execs (snd (fetch_and_hash env filename temp_dir skip m)) = []
  /\ removes (snd (fetch_and_hash env filename temp_dir skip m)) = [].
Proof.
  destruct (fetch_and_hash_run env filename temp_dir skip m) as (t0 & Ht0 & ->).
  destruct (commentary_quiet t0 Ht0) as [He Hr].
  unfold execs, removes in *.
  repeat case_scrutinee; cbn [snd]; rewrite ?omap_app;
    cbn; rewrite ?He, ?Hr; split; reflexivity.
Qed.

(** C5. With verification on, when the [put] fails (the child exits
    with a code other than 0, or cannot be run at all) the job answers
    [False] having started that one command and no other: no [get] is
    ever run, and nothing is removed. *)
Theorem failed_put_is_never_verified
    (filename temp_dir volume_name local_path : string)
    (local_hash : option string) (m m1 m2 : Machine X) (t1 : list Event)
    (r : string * string + Completed) :
  fetch_and_hash env filename temp_dir false m = (inr (local_path, local_hash), m1, t1) ->
  spawn env (upload_cmd_of volume_name local_path filename) m1 = (r, m2) ->
  put_failed r ->
  exists t,
    download_and_upload_file env filename temp_dir volume_name false m
    = (inr false, m2, t)
    /\ execs t = [upload_cmd_of volume_name local_path filename]
    /\ Forall (fun cmd => startswith "modal volume get" cmd = false) (execs t)
    /\ removes t = []
    /\ (forall p, r = inr p ->
        exists t2,
          upload_and_verify env filename temp_dir volume_name false
            local_path local_hash m1 = (inr false, m2, t2)).
Proof.
  intros Hfetch Hput Hfail.
  destruct (fetch_and_hash_quiet filename temp_dir false m) as [He Hr].
  rewrite Hfetch in He, Hr. cbn [snd] in He, Hr.
  unfold execs, removes in *.
  rewrite download_and_upload_file_run, Hfetch, upload_and_verify_run.
  cbv zeta. rewrite Hput.
  assert (Hget : startswith "modal volume get"
                   (upload_cmd_of volume_name local_path filename) = false)
    by reflexivity.
  destruct r as [[cls msg]|p].
  - eexists. split; [reflexivity|].
    rewrite ?app_comm_cons, ?omap_app. cbn.
    rewrite He, Hr. cbn. repeat split; [|discriminate].
    constructor; [exact Hget|constructor].
  - cbn in Hfail. destruct (Z.eqb_spec (returncode p) 0) as [|_]; [contradiction|].
    eexists. split; [reflexivity|].
    rewrite ?app_comm_cons, ?omap_app. cbn.
    rewrite He, Hr. cbn. repeat split.
    + constructor; [exact Hget|constructor].
    + intros _ _. eexists. reflexivity.
Qed.

(** C6. With verification on, when the [put] exits with code 0 and
    what the re-download leaves at the verification path differs from
    the local bytes (the hash not colliding on the two), the upload and
    its verification answer [False], and they never call [os.remove] on
    the fetched file: if the two commands left it alone, it is still
    there afterwards. *)
Theorem altered_upload_is_rejected
    (filename temp_dir volume_name local_path : string)
    (local_data remote_data : list byte) (m m1 m2 : Machine X)
    (p : Completed) (r : string * string + Completed) :
  let vp := verify_path_of temp_dir ("/" +:+ filename) in
  let local_hash := Some (stream_hexdigest (sha256 env) 4096 local_data) in
  spawn env (upload_cmd_of volume_name local_path filename) m = (inr p, m1) ->
  returncode p = 0 ->
  spawn env (download_cmd_of volume_name ("/" +:+ filename) vp) m1 = (r, m2) ->
  fs m2 !! vp = Some remote_data ->
  remote_data <> local_data ->
  (sha256 env remote_data = sha256 env local_data -> remote_data = local_data) ->
  local_path <> vp ->
  exists mf t,
    upload_and_verify env filename temp_dir volume_name false
      local_path local_hash m = (inr false, mf, t)
    /\ ~ In local_path (removes t)
    /\ (forall data,
          fs m1 !! local_path = Some data -> fs m2 !! local_path = Some data ->
          fs mf !! local_path = Some data).
Proof.
  intros vp local_hash Hput Hrc Hget Hvp Hdiff Hfree Hne.
  rewrite upload_and_verify_run. cbv zeta. rewrite Hput, Hrc. cbn [Z.eqb].
  case (String.eqb (stdout p) "").
  { do 2 eexists. split; [reflexivity|]. split; [cbn; tauto | auto]. }
  rewrite verify_modal_upload_run. cbv zeta. fold vp. rewrite Hget.
  assert (Hreject : forall h : string,
             h = stream_hexdigest (sha256 env) 4096 local_data ->
             h <> stream_hexdigest (sha256 env) 4096 remote_data).
  { intros h -> Heq.
    rewrite !stream_hexdigest_whole in Heq by apply block_4096_positive.
    apply hexlify_inj in Heq. symmetry in Heq. auto. }
  assert (Hkept : forall data : list byte,
             fs m2 !! local_path = Some data ->
             delete vp (fs m2) !! local_path = Some data).
  { intros data Hd. rewrite lookup_delete_ne by congruence. exact Hd. }
  destruct r as [[cls msg]|q].
  { do 2 eexists. split; [reflexivity|]. split; [cbn; tauto | auto]. }
  case (returncode q =? 0).
  2:{ do 2 eexists. split; [reflexivity|]. split; [cbn; tauto | auto]. }
  case (String.eqb (stdout q) "").
  { do 2 eexists. split; [reflexivity|]. split; [cbn; tauto | auto]. }
  rewrite Hvp. unfold local_hash.
  destruct (decide (_ = _)) as [Heq|_]; [exfalso; eapply Hreject; eauto|].
  do 2 eexists. split; [reflexivity|]. split.
  - cbn. intros [H|[]]. congruence.
  - cbn [fs]. auto.
Qed.

(** When both commands exit with code 0 and print something, and the
    re-download leaves the local bytes at the verification path, the
    upload is verified: the copy is removed after its digest is taken,
    the verdict is printed, and only then is the fetched file removed. *)
Lemma verified_upload_succeeds
    (filename temp_dir volume_name local_path : string) (data : list byte)
    (m m1 m2 : Machine X) (p q : Completed) :
  let vp := verify_path_of temp_dir ("/" +:+ filename) in
  let put := upload_cmd_of volume_name local_path filename in
  let get := download_cmd_of volume_name ("/" +:+ filename) vp in
  let d := "Uploading " +:+ filename +:+ " to Modal volume" in
  let h := stream_hexdigest (sha256 env) 4096 data in
  spawn env put m = (inr p, m1) -> returncode p = 0 -> stdout p <> "" ->
  spawn env get m1 = (inr q, m2) -> returncode q = 0 -> stdout q <> "" ->
  fs m2 !! vp = Some data ->
  local_path <> vp ->
  is_Some (fs m2 !! local_path) ->
  upload_and_verify env filename temp_dir volume_name false local_path (Some h) m
  = (inr true,
     Build_Machine (delete local_path (delete vp (fs m2))) (ext m2),
     [Print (MsgRunning d); Exec put; Print (MsgCompleted d); Print MsgVerifying;
      Exec get; Open vp; Remove vp; Print (MsgHashPassed (str_prefix 16 h));
      Remove local_path; Print (MsgCleanedUp filename false)]).
Proof.
  intros vp put get d h Hput Hp Hout Hget Hq Hout' Hvp Hne [kept Hkept].
  apply String.eqb_neq in Hout, Hout'.
  rewrite upload_and_verify_run. cbv zeta. fold put. rewrite Hput, Hp, Hout.
  cbn [Z.eqb]. rewrite verify_modal_upload_run. cbv zeta. fold vp get.
  rewrite Hget, Hq, Hout', Hvp. cbn [Z.eqb]. fold h.
  destruct (decide (h = h)) as [_|]; [|contradiction].
  cbn [fs]. rewrite lookup_delete_ne by congruence. rewrite Hkept. reflexivity.
Qed.

End Transfer.

Section Orchestrator.
Context {X : Type} (env : Env X).

Implicit Types (m : Machine X) (t : list Event).

Lemma processed_cons e t : processed (e :: t) = processed [e] ++ processed t.
Proof. apply (processed_app [e] t). Qed.

(** Cuts [processed] of a trace into [processed] of its pieces. *)
Ltac split_processed :=
  repeat first
    [ rewrite processed_app
    | match goal with
      | |- context [processed (?e :: ?t)] =>
          lazymatch t with
          | [] => fail
          | _ => rewrite (processed_cons e t)
          end
      end ].

Lemma run_command_trace cmd description show_progress m :
  let t := snd (run_command env cmd description show_progress m) in
  processed t = [] /\ execs t = [cmd] /\ fetches t = [] /\ removes t = []
  /\ opens t = [].
Proof.
  rewrite run_command_run. cbv zeta.
  destruct show_progress; repeat case_scrutinee; cbn; repeat split; reflexivity.
Qed.

Lemma capability_trace_validation_only temp_dir volume_name m :
  Forall (validation_only temp_dir volume_name)
    (snd (run_command env "modal --version" "Checking Modal CLI" false m)).
Proof.
  rewrite run_command_run. cbv zeta.
  repeat case_scrutinee; cbn [snd app]; repeat constructor.
Qed.

Lemma job_event_validation_only temp_dir volume_name t :
  Forall (job_event validation_file temp_dir volume_name) t ->
  Forall (validation_only temp_dir volume_name) t.
Proof.
  induction 1 as [|e t He _ IH]; constructor; [|exact IH].
  destruct e as [| | | |msg]; cbn in *; try tauto.
  destruct msg; tauto.
Qed.

(** A run that gets to its jobs, by their outcomes: it stops after a
    failed validation shard, and otherwise goes through every training
    shard, prints the two counts and exits by the count of failures. *)
Lemma main_by_outcomes args m os :
  run_outcomes env args m = Some os ->
  exists b0 rest mf t,
    os = b0 :: rest
    /\ main env args m
       = (if b0 then
            if tally false rest >? 0 then inl (SystemExit 1) else inr tt
          else inl (SystemExit 1), mf, t)
    /\ processed t = (if b0 then shard_files args else [validation_file])
    /\ (b0 = true ->
        exists t0,
          t = t0 ++ [Print MsgSummaryHeader;
                     Print (MsgUploaded (tally true rest + 1));
                     Print (MsgFailedUploads (tally false rest));
                     Print (if tally false rest >? 0
                            then MsgSomeFailed (tally false rest)
                            else MsgAllUploaded)])
    /\ (b0 = false ->
        exists temp_dir t0,
          t = t0 ++ [Print MsgValidationFailed]
          /\ Forall (validation_only temp_dir (volume args)) t).
Proof.
  unfold run_outcomes. rewrite main_run. cbv zeta.
  pose proof (run_command_trace "modal --version" "Checking Modal CLI" false m) as Hcli.
  cbv zeta in Hcli. destruct Hcli as (Hcli & _).
  destruct (run_command env "modal --version" _ false m) as [[[e|r] m1] t1] eqn:Hrun;
    [discriminate|].
  cbn [snd] in Hcli.
  destruct (truthy r); [|discriminate].
  destruct (mkdtemp env m1) as [[e|temp_dir] m2]; [discriminate|].
  intros [= <-]. unfold shard_files. cbn [outcomes].
  destruct (download_and_upload_file_returns env validation_file temp_dir
              (volume args) (skip_verification args) m2)
    as (b0 & m3 & t3 & Hval & Hev).
  rewrite Hval.
  set (pre := if skip_verification args then [Print MsgVerificationDisabled] else []).
  assert (Hpre : processed pre = []) by (unfold pre; case_match; reflexivity).
  destruct b0.
  - destruct (training_loop_run env temp_dir (volume args) (skip_verification args)
                (range 1 (chunks args + 1)) 0 0 m3) as (m4 & t4 & Hloop & Hproc).
    cbv zeta in Hloop. rewrite Hloop. rewrite !Z.add_0_l.
    set (rest := outcomes env _ _ _ _ m3).
    exists true, rest.
    destruct (tally false rest >? 0); do 2 eexists;
      (split; [reflexivity|]); (split; [reflexivity|]);
      (split; [|split; [|discriminate]]).
    1,3: cbn [snd]; apply processed_job_events in Hev; split_processed;
      rewrite Hpre, Hcli, Hev, Hproc; cbn -[training_file validation_file range];
      rewrite ?List.app_nil_r; reflexivity.
    all: intros _;
      exists ((pre ++ t1 ++ [Print (MsgTempDir temp_dir); Print MsgValidationHeader])
                ++ (Print (MsgProcessing validation_file) :: t3)
                ++ Print MsgTrainingHeader :: t4);
      cbn [snd];
      repeat first [rewrite <- List.app_assoc | progress cbn [app]]; reflexivity.
  - exists false, (outcomes env temp_dir (volume args) (skip_verification args)
                     (map training_file (range 1 (chunks args + 1))) m3).
    do 2 eexists. split; [reflexivity|]. split; [reflexivity|].
    split; [|split; [discriminate|]].
    + cbn [snd]. apply processed_job_events in Hev. split_processed.
      rewrite Hpre, Hcli, Hev. reflexivity.
    + intros _. exists temp_dir. eexists. split.
      * rewrite !List.app_assoc. reflexivity.
      * pose proof (capability_trace_validation_only temp_dir (volume args) m) as Hv.
        rewrite Hrun in Hv. cbn [snd] in Hv.
        pose proof (job_event_validation_only _ _ _ Hev) as Hev'.
        repeat first [ assumption | apply Forall_app_2 | apply List.Forall_cons
                     | apply Forall_nil_2 | exact I | reflexivity ].
        unfold pre. case_match; repeat constructor.
Qed.

(** A run that never gets to its jobs exits with status 1 and starts
    none. *)
Lemma main_without_outcomes args m :
  run_outcomes env args m = None ->
  exit_status (fst (fst (main env args m))) = 1
  /\ processed (snd (main env args m)) = [].
Proof.
  unfold run_outcomes. rewrite main_run. cbv zeta.
  pose proof (run_command_trace "modal --version" "Checking Modal CLI" false m) as Hcli.
  cbv zeta in Hcli. destruct Hcli as (Hcli & _).
  set (pre := if skip_verification args then [Print MsgVerificationDisabled] else []).
  assert (Hpre : processed pre = []) by (unfold pre; case_match; reflexivity).
  destruct (run_command env "modal --version" _ false m) as [[[e|r] m1] t1];
    cbn [snd] in Hcli.
  - intros _. cbn [fst snd exit_status]. split; [reflexivity|].
    rewrite processed_app, Hpre, Hcli. reflexivity.
  - destruct (truthy r).
    + destruct (mkdtemp env m1) as [[e|temp_dir] m2]; [|discriminate].
      intros _. cbn [fst snd exit_status]. split; [reflexivity|].
      rewrite processed_app, Hpre, Hcli. reflexivity.
    + intros _. cbn [fst snd exit_status]. split; [reflexivity|].
      rewrite !processed_app, Hpre, Hcli. reflexivity.
Qed.

Lemma tally_nonneg b os : 0 <= tally b os.
Proof. unfold tally. lia. Qed.

Lemma tally_false_cons o os :
  tally false (o :: os) = (if o then 0 else 1) + tally false os.
Proof.
  rewrite tally_cons. destruct o; destruct (decide _); congruence.
Qed.

Lemma tally_false_zero os : tally false os = 0 <-> Forall (fun b => b = true) os.
Proof.
  induction os as [|o os IH]; [split; [constructor|reflexivity]|].
  rewrite tally_false_cons. pose proof (tally_nonneg false os).
  destruct o.
  - rewrite Z.add_0_l, IH. split; [constructor; [reflexivity|assumption]|].
    inversion 1; assumption.
  - split; [intros; exfalso; lia|]. inversion 1; discriminate.
Qed.

Lemma tally_false_positive os : 0 < tally false os <-> In false os.
Proof.
  induction os as [|o os IH].
  { change (tally false []) with 0. split; [lia | intros []]. }
  rewrite tally_false_cons. pose proof (tally_nonneg false os).
  destruct o; cbn [In].
  - rewrite Z.add_0_l, IH. split; [tauto|]. intros [|]; [discriminate|assumption].
  - split; [tauto|lia].
Qed.

(** C2. The exit status is 0 exactly when the run got to its jobs and
    the validation shard and every training shard succeeded; it is 1
    when the pre-flight check of the tool fails, when the validation
    shard fails, and when some training shard fails. *)
Theorem exit_status_reflects_outcomes (args : Args) (m : Machine X) :
  let status := exit_status (fst (fst (main env args m))) in
  (status = 0 <->
     exists os, run_outcomes env args m = Some os /\ Forall (fun b => b = true) os)
  /\ (capability_check env m = false -> status = 1)
  /\ (forall os, run_outcomes env args m = Some (false :: os) -> status = 1)
  /\ (forall os, run_outcomes env args m = Some os -> In false os -> status = 1).
Proof.
  intros status.
  assert (Hsome : forall os, run_outcomes env args m = Some os ->
            (status = 0 /\ Forall (fun b => b = true) os)
            \/ (status = 1 /\ In false os)).
  { intros os Hos.
    destruct (main_by_outcomes args m os Hos) as (b0 & rest & mf & t & -> & Hmain & _).
    unfold status. rewrite Hmain. cbn [fst].
    destruct b0; [|right; split; [reflexivity|left; reflexivity]].
    pose proof (tally_nonneg false rest).
    destruct (Z.gtb_spec (tally false rest) 0) as [Hpos|Hzero].
    - right. split; [reflexivity|]. right. apply tally_false_positive. lia.
    - left. split; [reflexivity|]. constructor; [reflexivity|].
      apply tally_false_zero. lia. }
  assert (Hbad : forall os, In false os -> ~ Forall (fun b => b = true) os).
  { intros os Hin Hall. rewrite List.Forall_forall in Hall.
    specialize (Hall false Hin). discriminate. }
  assert (Hnone : run_outcomes env args m = None -> status = 1)
    by (intros H; apply main_without_outcomes; exact H).
  repeat split.
  - intros H0. destruct (run_outcomes env args m) as [os|] eqn:Hos.
    + exists os. split; [reflexivity|].
      destruct (Hsome os eq_refl) as [[_ Hall]|[H1 _]]; [exact Hall|lia].
    + specialize (Hnone eq_refl). lia.
  - intros (os & Hos & Hall).
    destruct (Hsome os Hos) as [[H0 _]|[_ Hin]]; [exact H0|].
    destruct (Hbad os Hin Hall).
  - intros Hcap. apply Hnone. unfold capability_check in Hcap. unfold run_outcomes.
    destruct (run_command env _ _ false m) as [[[e|r] m1] t1]; [reflexivity|].
    rewrite Hcap. reflexivity.
  - intros os Hos.
    destruct (Hsome _ Hos) as [[_ Hall]|[H1 _]]; [|exact H1].
    inversion Hall; discriminate.
  - intros os Hos Hin.
    destruct (Hsome _ Hos) as [[_ Hall]|[H1 _]]; [|exact H1].
    destruct (Hbad os Hin Hall).
Qed.

End Orchestrator.

Lemma log2_at_least (k i : Z) : 0 < k -> k <= i -> Z.log2 k <= Z.log2 i.
Proof. intros _ H. apply Z.log2_le_mono. exact H. Qed.

Ltac digits_goal :=
  cbv beta iota zeta delta [zfill zeros String.length Nat.sub String.append];
  change "0"%char with (digit_char 0);
  repeat (apply f_equal2; [apply f_equal|]); try reflexivity;
  Z.div_mod_to_equations; lia.

(** Below a million, [{i:06d}] is the six decimal digits of [i]. *)
Lemma format_06d_six_digits (i : Z) :
  0 <= i < 1000000 -> format_06d i = six_digits i.
Proof.
  intros Hi. unfold format_06d, decimal, six_digits.
  destruct (Z.ltb_spec i 0); [lia|].
  assert (H10 : 10 <= i -> 3 <= Z.log2 i)
    by (intros; change 3 with (Z.log2 10); apply log2_at_least; lia).
  assert (H100 : 100 <= i -> 6 <= Z.log2 i)
    by (intros; change 6 with (Z.log2 100); apply log2_at_least; lia).
  remember (Z.to_nat (Z.log2 i)) as g eqn:Hg.
  destruct (Z.ltb_spec i 10) as [Hlt|Hge].
  - cbn [decimal_from]. destruct (Z.ltb_spec i 10); [|lia].
    digits_goal.
  - destruct (Z.ltb_spec i 100) as [Hlt|Hge'].
    + destruct g as [|g]; [lia|]. cbn [decimal_from].
      destruct (Z.ltb_spec i 10); [lia|].
      destruct (Z.ltb_spec (i / 10) 10); [|Z.div_mod_to_equations; lia].
      digits_goal.
    + destruct g as [|[|[|[|[|g]]]]]; try lia. cbn [decimal_from].
      repeat match goal with
             | |- context [?a <? 10] => destruct (Z.ltb_spec a 10)
             end;
        try (exfalso; Z.div_mod_to_equations; lia);
        digits_goal.
Qed.

Example format_06d_examples :
  format_06d 1 = "000001" /\ format_06d 123456 = "123456"
  /\ format_06d 1234567 = "1234567" /\ format_06d (-1) = "-00001".
Proof. repeat split; reflexivity. Qed.

Example path_examples :
  os_path_join "/tmp/tmpq0w1" "verify_a.bin" = "/tmp/tmpq0w1/verify_a.bin"
  /\ os_path_join "/tmp/tmpq0w1/" "a.bin" = "/tmp/tmpq0w1/a.bin"
  /\ os_path_join "/tmp" "/a.bin" = "/a.bin"
  /\ os_path_basename "/finewebedu_val_000000.bin" = "finewebedu_val_000000.bin"
  /\ os_path_basename "a/b/c.bin" = "c.bin".
Proof. repeat split; reflexivity. Qed.

Example bytes_examples :
  hexlify [x00; xff; x1a] = "00ff1a"
  /\ unpack_u16le [x01; x02; xff; xff] = [513; 65535]
  /\ stream_hexdigest (fun d => d) 2 [x01; x02; x03] = "010203".
Proof. repeat split; reflexivity. Qed.

Section Run.
Context {X : Type} (env : Env X).

Implicit Types (m : Machine X) (t : list Event).

Lemma outcomes_length temp_dir volume_name skip files m :
  length (outcomes env temp_dir volume_name skip files m) = length files.
Proof.
  revert m. induction files as [|f files IH]; intros m; [reflexivity|].
  cbn [outcomes length].
  destruct (download_and_upload_file env f temp_dir volume_name skip m) as [[r m1] t1].
  cbn [length]. rewrite IH. reflexivity.
Qed.

Lemma run_outcomes_length args m os :
  run_outcomes env args m = Some os ->
  length os = S (length (range 1 (chunks args + 1))).
Proof.
  unfold run_outcomes.
  destruct (run_command env _ _ false m) as [[[e|r] m1] t1]; [discriminate|].
  destruct (truthy r); [|discriminate].
  destruct (mkdtemp env m1) as [[e|temp_dir] m2]; [discriminate|].
  intros [= <-]. rewrite <- (length_map training_file).
  exact (outcomes_length temp_dir (volume args) (skip_verification args)
           (shard_files args) m2).
Qed.

Lemma tally_true_all os :
  Forall (fun b => b = true) os -> tally true os = Z.of_nat (length os).
Proof.
  induction 1 as [|o os -> _ IH]; [reflexivity|].
  rewrite tally_cons, IH. destruct (decide (true = true)); [|contradiction].
  cbn [length]. lia.
Qed.

Lemma training_file_not_validation i : training_file i <> validation_file.
Proof. unfold training_file, validation_file. cbn [String.append]. discriminate. Qed.

(** C4. When the validation shard fails, the run exits with status 1
    having started that one job: every fetch is of the validation shard,
    every command is the check of the tool or the [put] or [get] of the
    validation shard, no training shard is fetched, and the last thing
    said is that the validation file failed. *)
Theorem failed_validation_stops_the_run (args : Args) (m : Machine X) (os : list bool) :
  run_outcomes env args m = Some (false :: os) ->
  exists mf t temp_dir t0,
    main env args m = (inl (SystemExit 1), mf, t)
    /\ exit_status (fst (fst (main env args m))) = 1
    /\ processed t = [validation_file]
    /\ Forall (validation_only temp_dir (volume args)) t
    /\ (forall i, ~ In (training_file i) (fetches t))
    /\ t = t0 ++ [Print MsgValidationFailed].
Proof.
  intros Hos.
  destruct (main_by_outcomes env args m _ Hos)
    as (b0 & rest & mf & t & [= <- <-] & Hmain & Hproc & _ & Hstop).
  destruct (Hstop eq_refl) as (temp_dir & t0 & Ht & Hall).
  exists mf, t, temp_dir, t0. rewrite Hmain. repeat split; try assumption.
  intros i Hin. unfold fetches in Hin. apply list_elem_of_In in Hin.
  apply list_elem_of_omap in Hin. destruct Hin as (e & He & Hf).
  rewrite List.Forall_forall in Hall. apply list_elem_of_In in He.
  specialize (Hall e He). destruct e; try discriminate.
  injection Hf as ->. cbn in Hall. exact (training_file_not_validation i Hall).
Qed.

(** C9. No error leaves a job: the per-job function always returns;
    an error raised while fetching, previewing or hashing, and one raised
    while uploading or verifying, is recorded for the job and answered
    [False]; and once the validation shard has succeeded, the run goes
    through every training shard, whatever their outcomes, and reports
    the count of failures. *)
Theorem job_errors_are_contained :
  (forall filename temp_dir volume_name skip m,
      exists b mf t,
        download_and_upload_file env filename temp_dir volume_name skip m
        = (inr b, mf, t))
  /\ (forall filename temp_dir volume_name skip m e m1 t1,
        fetch_and_hash env filename temp_dir skip m = (inl e, m1, t1) ->
        download_and_upload_file env filename temp_dir volume_name skip m
        = (inr false, m1,
           Print (MsgProcessing filename) :: t1 ++ [Print (MsgJobError filename e)]))
  /\ (forall filename temp_dir volume_name skip m local_path local_hash m1 t1 e m2 t2,
        fetch_and_hash env filename temp_dir skip m
        = (inr (local_path, local_hash), m1, t1) ->
        upload_and_verify env filename temp_dir volume_name skip
          local_path local_hash m1 = (inl e, m2, t2) ->
        download_and_upload_file env filename temp_dir volume_name skip m
        = (inr false, m2,
           Print (MsgProcessing filename) :: (t1 ++ t2)
             ++ [Print (MsgJobError filename e)]))
  /\ (forall args m os,
        run_outcomes env args m = Some (true :: os) ->
        length os = length (range 1 (chunks args + 1))
        /\ processed (snd (main env args m)) = shard_files args
        /\ In (Print (MsgFailedUploads (tally false os))) (snd (main env args m))).
Proof.
  split; [|split; [|split]].
  - intros filename temp_dir volume_name skip m.
    destruct (download_and_upload_file_returns env filename temp_dir
                volume_name skip m) as (b & mf & t & H & _).
    eauto.
  - intros * Hfetch. rewrite download_and_upload_file_run, Hfetch. reflexivity.
  - intros * Hfetch Hup.
    rewrite download_and_upload_file_run, Hfetch, Hup. reflexivity.
  - intros args m os Hos.
    destruct (main_by_outcomes env args m _ Hos)
      as (b0 & rest & mf & t & [= <- <-] & Hmain & Hproc & Hsum & _).
    rewrite Hmain. cbn [snd]. split; [|split; [exact Hproc|]].
    + apply run_outcomes_length in Hos. cbn [length] in Hos. lia.
    + destruct (Hsum eq_refl) as (t0 & ->).
      apply in_or_app. right. cbn. tauto.
Qed.

(** C3. When every transfer succeeds, a run on [N] chunks returns
    (exit status 0) having started exactly [1 + N] jobs in order: the
    validation shard, then the training shards 1 to [N], each under the
    name made of the prefix, the index padded with zeros to six digits
    and the extension; and its summary reports [N + 1] files uploaded
    and 0 failed. *)
Theorem all_transfers_succeed (N : nat) (args : Args) (m : Machine X) (os : list bool) :
  chunks args = Z.of_nat N ->
  run_outcomes env args m = Some os ->
  Forall (fun b => b = true) os ->
  exists mf t t0,
    main env args m = (inr tt, mf, t)
    /\ exit_status (fst (fst (main env args m))) = 0
    /\ processed t
       = "finewebedu_val_000000.bin" :: map training_file (seqZ 1 (Z.of_nat N))
    /\ length (processed t) = S N
    /\ (forall i, 1 <= i <= Z.of_nat N -> i < 1000000 ->
          training_file i = "finewebedu_train_" +:+ six_digits i +:+ ".bin")
    /\ t = t0 ++ [Print MsgSummaryHeader; Print (MsgUploaded (Z.of_nat N + 1));
                  Print (MsgFailedUploads 0); Print MsgAllUploaded].
Proof.
  intros Hn Hos Hall.
  assert (Hlen : length os = S N).
  { rewrite (run_outcomes_length _ _ _ Hos). unfold range.
    rewrite length_seqZ. lia. }
  destruct (main_by_outcomes env args m _ Hos)
    as (b0 & rest & mf & t & -> & Hmain & Hproc & Hsum & _).
  inversion Hall as [|? ? -> Hrest]; subst.
  destruct (Hsum eq_refl) as (t0 & Ht).
  apply tally_false_zero in Hrest as Hzero.
  rewrite (tally_true_all _ Hrest), Hzero in Ht. cbn [length] in Hlen.
  replace (Z.of_nat (length rest)) with (Z.of_nat N) in Ht by lia.
  change (0 >? 0) with false in Ht.
  rewrite Hzero in Hmain. change (0 >? 0) with false in Hmain.
  unfold shard_files, range in Hproc. rewrite Hn in Hproc.
  replace (Z.of_nat N + 1 - 1) with (Z.of_nat N) in Hproc by lia.
  exists mf, t, t0. rewrite Hmain.
  split; [reflexivity|]. split; [reflexivity|]. split; [exact Hproc|].
  split; [|split; [|exact Ht]].
  - rewrite Hproc. cbn [length]. rewrite length_map, length_seqZ. lia.
  - intros i Hi Hsmall. unfold training_file.
    rewrite format_06d_six_digits by lia. reflexivity.
Qed.

End Run.

Section Truthiness.
Context {X : Type} (env : Env X).

Implicit Types (m : Machine X) (t : list Event).

Lemma eqb_empty_true (s : string) : s = "" -> String.eqb s "" = true.
Proof. intros ->. reflexivity. Qed.

(** C10. [run_command] returns [None] exactly when the command exits
    with a code other than 0, and its captured output otherwise; and a
    command that exits with code 0 and an empty output is treated as one
    that failed by each of the three callers: the pre-flight check makes
    the run exit with status 1 before any job, the upload is answered
    [False] with no verification, and the verification is answered
    [False] without reading or removing anything. *)
Theorem empty_output_is_taken_for_failure :
  (forall cmd description show_progress m p m1,
      spawn env cmd m = (inr p, m1) ->
      exists t,
        run_command env cmd description show_progress m
        = (inr (if returncode p =? 0 then Some (stdout p) else None), m1, t))
  /\ (forall args m p m1,
        spawn env "modal --version" m = (inr p, m1) ->
        returncode p <> 0 \/ stdout p = "" ->
        exists t0,
          main env args m = (inl (SystemExit 1), m1, t0 ++ [Print MsgNoCli])
          /\ execs (t0 ++ [Print MsgNoCli]) = ["modal --version"]
          /\ processed (t0 ++ [Print MsgNoCli]) = [])
  /\ (forall filename temp_dir volume_name skip local_path local_hash m p m1,
        spawn env (upload_cmd_of volume_name local_path filename) m = (inr p, m1) ->
        returncode p <> 0 \/ stdout p = "" ->
        exists t0,
          upload_and_verify env filename temp_dir volume_name skip
            local_path local_hash m
          = (inr false, m1, t0 ++ [Print (MsgUploadFailed filename)])
          /\ execs (t0 ++ [Print (MsgUploadFailed filename)])
             = [upload_cmd_of volume_name local_path filename]
          /\ removes (t0 ++ [Print (MsgUploadFailed filename)]) = [])
  /\ (forall volume_name remote_path local_hash temp_dir m p m1,
        let cmd := download_cmd_of volume_name remote_path
                     (verify_path_of temp_dir remote_path) in
        spawn env cmd m = (inr p, m1) ->
        returncode p <> 0 \/ stdout p = "" ->
        exists t0,
          verify_modal_upload env volume_name remote_path local_hash temp_dir m
          = (inr false, m1, t0 ++ [Print MsgNoRedownload])
          /\ execs (t0 ++ [Print MsgNoRedownload]) = [cmd]
          /\ opens (t0 ++ [Print MsgNoRedownload]) = []
          /\ removes (t0 ++ [Print MsgNoRedownload]) = []).
Proof.
  split; [|split; [|split]].
  - intros cmd description show_progress m p m1 Hs.
    rewrite run_command_run. cbv zeta. rewrite Hs.
    destruct (returncode p =? 0); eexists; reflexivity.
  - intros args m p m1 Hs Hbad.
    rewrite main_run. cbv zeta. rewrite run_command_run. cbv zeta. rewrite Hs.
    destruct (Z.eqb_spec (returncode p) 0) as [Hz|Hnz].
    + destruct Hbad as [|Hempty]; [contradiction|].
      unfold truthy. rewrite (eqb_empty_true _ Hempty). cbn [negb].
      exists ((if skip_verification args then [Print MsgVerificationDisabled] else [])
                ++ [Exec "modal --version"]).
      destruct (skip_verification args); repeat split; reflexivity.
    + cbn [truthy].
      eexists ((if skip_verification args then [Print MsgVerificationDisabled] else [])
                 ++ [Exec "modal --version"; _; _]).
      destruct (skip_verification args); repeat split; reflexivity.
  - intros filename temp_dir volume_name skip local_path local_hash m p m1 Hs Hbad.
    rewrite upload_and_verify_run. cbv zeta. rewrite Hs.
    destruct (Z.eqb_spec (returncode p) 0) as [Hz|Hnz].
    + destruct Hbad as [|Hempty]; [contradiction|].
      rewrite (eqb_empty_true _ Hempty).
      eexists [_; _; _]. repeat split; reflexivity.
    + eexists [_; _; _; _]. repeat split; reflexivity.
  - intros volume_name remote_path local_hash temp_dir m p m1 cmd Hs Hbad.
    rewrite verify_modal_upload_run. cbv zeta. fold cmd. rewrite Hs.
    destruct (Z.eqb_spec (returncode p) 0) as [Hz|Hnz].
    + destruct Hbad as [|Hempty]; [contradiction|].
      rewrite (eqb_empty_true _ Hempty).
      eexists [_]. repeat split; reflexivity.
    + eexists [_; _; _]. repeat split; reflexivity.
Qed.

End Truthiness.

(** C1. A [put] that exits with code 0 without printing anything is
    taken for a failed one: on a volume that stores the bytes it is handed
    and a tool that is silent on success, the upload of the validation
    shard has put in the volume the very bytes of the local file, the tool
    has exited with code 0, and yet the answer is [False]; the script has
    printed both that the upload completed and that it failed. *)
Theorem silent_put_reported_as_failure :
  spawn (Stub.env Stub.silent)
    (upload_cmd_of "fineweb-volume" Stub.fetched validation_file) Stub.staged
  = (inr (Stub.exited 0 "" ""), Stub.uploaded)
  /\ Stub.vol (ext Stub.uploaded) !! "/finewebedu_val_000000.bin"
     = fs Stub.uploaded !! Stub.fetched
  /\ upload_and_verify (Stub.env Stub.silent) validation_file Stub.scratch
       "fineweb-volume" false Stub.fetched
       (Some (stream_hexdigest Stub.toy_digest 4096 Stub.shard_a)) Stub.staged
     = (inr false, Stub.uploaded,
        [Print (MsgRunning "Uploading finewebedu_val_000000.bin to Modal volume");
         Exec (upload_cmd_of "fineweb-volume" Stub.fetched validation_file);
         Print (MsgCompleted "Uploading finewebedu_val_000000.bin to Modal volume");
         Print (MsgUploadFailed validation_file)]).
Proof. repeat split; vm_compute; reflexivity. Qed.

(** ** The theorems at work on the test double *)

Lemma exit_status_reflects_outcomes_witness :
  exit_status (fst (fst (main (Stub.env Stub.honest) Stub.two_chunks (Stub.boot [1; 2]))))
  = 0
  /\ exit_status (fst (fst (main (Stub.env Stub.honest) Stub.two_chunks (Stub.boot [2]))))
     = 1.
Proof.
  split.
  - apply (proj1 (exit_status_reflects_outcomes (Stub.env Stub.honest)
                    Stub.two_chunks (Stub.boot [1; 2]))).
    exists [true; true; true]. split; [vm_compute; reflexivity|].
    repeat constructor.
  - apply (proj2 (proj2 (proj2 (exit_status_reflects_outcomes (Stub.env Stub.honest)
                                  Stub.two_chunks (Stub.boot [2])))))
      with (os := [true; false; true]).
    + vm_compute. reflexivity.
    + right. left. reflexivity.
Defined.

Lemma all_transfers_succeed_witness :
  exit_status (fst (fst (main (Stub.env Stub.honest) Stub.two_chunks (Stub.boot [1; 2]))))
  = 0
  /\ processed (snd (main (Stub.env Stub.honest) Stub.two_chunks (Stub.boot [1; 2])))
     = ["finewebedu_val_000000.bin"; "finewebedu_train_000001.bin";
        "finewebedu_train_000002.bin"].
Proof.
  destruct (all_transfers_succeed (Stub.env Stub.honest) 2 Stub.two_chunks
              (Stub.boot [1; 2]) [true; true; true])
    as (mf & t & t0 & Hmain & Hstatus & Hproc & _).
  - reflexivity.
  - vm_compute. reflexivity.
  - repeat constructor.
  - split; [exact Hstatus|]. rewrite Hmain. exact Hproc.
Defined.

Lemma failed_validation_stops_the_run_witness :
  processed (snd (main (Stub.env Stub.corrupting) Stub.two_chunks (Stub.boot [1; 2])))
  = [validation_file].
Proof.
  destruct (failed_validation_stops_the_run (Stub.env Stub.corrupting) Stub.two_chunks
              (Stub.boot [1; 2]) [false; false])
    as (mf & t & temp_dir & t0 & Hmain & _ & Hproc & _).
  - vm_compute. reflexivity.
  - rewrite Hmain. exact Hproc.
Defined.

Lemma failed_put_is_never_verified_witness :
  execs (snd (download_and_upload_file (Stub.env Stub.refusing) validation_file
                Stub.scratch "fineweb-volume" false (Stub.boot [])))
  = [upload_cmd_of "fineweb-volume" Stub.fetched validation_file].
Proof.
  destruct (fetch_and_hash (Stub.env Stub.refusing) validation_file Stub.scratch
              false (Stub.boot [])) as [[[e|[lp lh]] m1] t1] eqn:Hfetch;
    [vm_compute in Hfetch; discriminate|].
  destruct (spawn (Stub.env Stub.refusing) (upload_cmd_of "fineweb-volume" lp validation_file)
              m1) as [r m2] eqn:Hput.
  destruct (failed_put_is_never_verified (Stub.env Stub.refusing) validation_file
              Stub.scratch "fineweb-volume" lp lh (Stub.boot []) m1 m2 t1 r Hfetch Hput)
    as (t & Hjob & Hexecs & _).
  - vm_compute in Hfetch. injection Hfetch as <- <- <- <-.
    vm_compute in Hput. injection Hput as <- <-. cbn. discriminate.
  - rewrite Hjob. cbn [snd]. rewrite Hexecs.
    vm_compute in Hfetch. injection Hfetch as <- <- <- <-. reflexivity.
Defined.

Lemma altered_upload_is_rejected_witness :
  fst (fst (upload_and_verify (Stub.env Stub.corrupting) validation_file Stub.scratch
              "fineweb-volume" false Stub.fetched
              (Some (stream_hexdigest Stub.toy_digest 4096 Stub.shard_a)) Stub.staged))
  = inr false.
Proof.
  destruct (spawn (Stub.env Stub.corrupting)
              (upload_cmd_of "fineweb-volume" Stub.fetched validation_file) Stub.staged)
    as [[x|p] m1] eqn:Hput; [vm_compute in Hput; discriminate|].
  destruct (spawn (Stub.env Stub.corrupting)
              (download_cmd_of "fineweb-volume" ("/" +:+ validation_file)
                 (verify_path_of Stub.scratch ("/" +:+ validation_file))) m1)
    as [r m2] eqn:Hget.
  destruct (altered_upload_is_rejected (Stub.env Stub.corrupting) validation_file
              Stub.scratch "fineweb-volume" Stub.fetched Stub.shard_a
              (Stub.flip_first Stub.shard_a) Stub.staged m1 m2 p r Hput)
    as (mf & t & Hrun & _).
  - vm_compute in Hput. injection Hput as <- <-. reflexivity.
  - exact Hget.
  - vm_compute in Hput. injection Hput as <- <-.
    vm_compute in Hget. injection Hget as <- <-. vm_compute. reflexivity.
  - vm_compute. discriminate.
  - intros H. vm_compute in H. discriminate.
  - vm_compute. discriminate.
  - cbv zeta in Hrun. change (sha256 (Stub.env Stub.corrupting)) with Stub.toy_digest in Hrun.
    rewrite Hrun. reflexivity.
Defined.

Lemma redownloaded_copy_removed_after_digest_witness :
  fs (snd (fst (verify_modal_upload (Stub.env Stub.corrupting) "fineweb-volume"
                  "/finewebedu_val_000000.bin"
                  (Some (stream_hexdigest Stub.toy_digest 4096 Stub.shard_a))
                  Stub.scratch Stub.remote_only)))
    !! "/tmp/tmpq0w1/verify_finewebedu_val_000000.bin" = None.
Proof.
  destruct (verify_modal_upload (Stub.env Stub.corrupting) "fineweb-volume"
              "/finewebedu_val_000000.bin"
              (Some (stream_hexdigest Stub.toy_digest 4096 Stub.shard_a))
              Stub.scratch Stub.remote_only) as [[res mf] t] eqn:Hrun.
  destruct (redownloaded_copy_removed_after_digest (Stub.env Stub.corrupting)
              "fineweb-volume" "/finewebedu_val_000000.bin" Stub.scratch
              (Some (stream_hexdigest Stub.toy_digest 4096 Stub.shard_a))
              Stub.remote_only mf res t Hrun) as (_ & _ & Hgone).
  - vm_compute in Hrun. injection Hrun as <- <- <-. cbn. tauto.
  - exact Hgone.
Defined.

Lemma job_errors_are_contained_witness :
  processed (snd (main (Stub.env Stub.honest) Stub.two_chunks (Stub.boot [2])))
  = shard_files Stub.two_chunks.
Proof.
  destruct (proj2 (proj2 (proj2 (job_errors_are_contained (Stub.env Stub.honest))))
              Stub.two_chunks (Stub.boot [2]) [false; true]) as (_ & Hproc & _).
  - vm_compute. reflexivity.
  - exact Hproc.
Defined.

Lemma empty_output_is_taken_for_failure_witness :
  fst (fst (upload_and_verify (Stub.env Stub.silent) validation_file Stub.scratch
              "fineweb-volume" false Stub.fetched None Stub.staged))
  = inr false.
Proof.
  destruct (spawn (Stub.env Stub.silent)
              (upload_cmd_of "fineweb-volume" Stub.fetched validation_file) Stub.staged)
    as [[x|p] m1] eqn:Hput; [vm_compute in Hput; discriminate|].
  destruct (proj1 (proj2 (proj2 (empty_output_is_taken_for_failure (Stub.env Stub.silent))))
              validation_file Stub.scratch "fineweb-volume" false Stub.fetched None
              Stub.staged p m1 Hput) as (t0 & Hrun & _).
  - right. vm_compute in Hput. injection Hput as <- <-. reflexivity.
  - rewrite Hrun. reflexivity.
Defined.

(** ** More of the script *)

(** *** preview_binary_file *)

Lemma list_pair_ind {A : Type} (P : list A -> Prop) :
  P [] -> (forall a, P [a]) -> (forall a b l, P l -> P (a :: b :: l)) ->
  forall l, P l.
Proof.
  intros H0 H1 H2.
  assert (H : forall l, P l /\ forall a, P (a :: l)).
  { induction l as [|b l [IH IH']]; [split; [exact H0 | exact H1]|].
    split; [apply IH' | intros a; apply H2, IH]. }
  intros l. apply H.
Qed.

Lemma lor_shiftl_8 (a b : Z) :
  0 <= a < 256 -> 0 <= b -> Z.lor a (Z.shiftl b 8) = a + 256 * b.
Proof.
  intros Ha Hb. rewrite Z.shiftl_mul_pow2 by lia. change (2 ^ 8) with 256.
  rewrite <- Z.lxor_lor, <- Z.add_nocarry_lxor; [lia| |];
    apply Z.bits_inj'; intros n Hn; rewrite Z.land_spec, Z.bits_0;
    destruct (Z.lt_ge_cases n 8) as [Hlt|Hge].
  1,3: replace (b * 256) with (b * 2 ^ 8) by reflexivity;
    rewrite Z.mul_pow2_bits_low by lia; apply andb_false_r.
  all: replace (Z.testbit a n) with false; [reflexivity|];
    symmetry; destruct (Z.eq_dec a 0) as [->|Hnz]; [apply Z.bits_0|];
    apply Z.bits_above_log2; [lia|];
    apply Z.lt_le_trans with 8; [|exact Hge];
    apply Z.log2_lt_pow2; [lia|]; change (2 ^ 8) with 256; lia.
Qed.

Lemma byte_value_bounds (b : byte) : 0 <= Z.of_N (Byte.to_N b) < 256.
Proof. pose proof (Byte.to_N_bounded b). lia. Qed.

Lemma length_unpack_u16le (data : list byte) :
  length (unpack_u16le data) = (length data / 2)%nat.
Proof.
  induction data as [| a | a b l IH] using list_pair_ind; [reflexivity..|].
  cbn [unpack_u16le length]. rewrite IH.
  change (S (S (length l))) with (1 * 2 + length l)%nat.
  rewrite Nat.div_add_l by lia. reflexivity.
Qed.

Lemma unpack_u16le_range (data : list byte) :
  Forall (fun tok => 0 <= tok < 65536) (unpack_u16le data).
Proof.
  induction data as [| a | a b l IH] using list_pair_ind; try constructor;
    [|exact IH].
  pose proof (byte_value_bounds a). pose proof (byte_value_bounds b).
  rewrite lor_shiftl_8 by lia. lia.
Qed.

Lemma unpack_u16le_lookup (data : list byte) (j : nat) (lo hi : byte) :
  data !! (2 * j)%nat = Some lo -> data !! (2 * j + 1)%nat = Some hi ->
  unpack_u16le data !! j
  = Some (Z.of_N (Byte.to_N lo) + 256 * Z.of_N (Byte.to_N hi)).
Proof.
  revert j. induction data as [| a | a b l IH] using list_pair_ind; intros j Hlo Hhi.
  - discriminate.
  - destruct j; [discriminate|]. cbn in Hlo.
    replace (j + S (j + 0))%nat with (S (j + j)) in Hlo by lia. discriminate.
  - destruct j as [|j].
    + cbn in Hlo, Hhi. injection Hlo as <-. injection Hhi as <-.
      cbn [unpack_u16le]. cbn [lookup list_lookup].
      pose proof (byte_value_bounds a). pose proof (byte_value_bounds b).
      rewrite lor_shiftl_8 by lia. reflexivity.
    + replace (2 * S j)%nat with (S (S (2 * j))) in Hlo by lia.
      replace (2 * S j + 1)%nat with (S (S (2 * j + 1))) in Hhi by lia.
      cbn [unpack_u16le]. exact (IH j Hlo Hhi).
Qed.

Lemma preview_count (content : list byte) (n : nat) :
  (if (length (take (n * 2) content) <? n * 2)%nat
   then (length (take (n * 2) content) / 2)%nat else n)
  = Nat.min n (length content / 2).
Proof.
  rewrite length_take.
  destruct (Nat.ltb_spec (Nat.min (n * 2) (length content)) (n * 2)) as [Hshort|Hlong].
  - replace (Nat.min (n * 2) (length content)) with (length content) by lia.
    assert (length content / 2 < n)%nat
      by (apply Nat.Div0.div_lt_upper_bound; lia).
    lia.
  - assert (n <= length content / 2)%nat
      by (apply Nat.div_le_lower_bound; lia).
    lia.
Qed.

(** X1. The preview never fails and changes nothing: for a file that is
    there it prints at most [num_tokens] tokens, as many as the file has
    whole 16-bit words when it is shorter, and the size of the file; for a
    file that is not there it prints that it could not preview it. *)
Theorem preview_binary_file_harmless {X : Type} (path : string) (num_tokens : nat)
    (m : Machine X) :
  preview_binary_file path num_tokens m
  = (inr tt, m,
     Open path ::
       match fs m !! path with
       | None => [Print (MsgNoPreview (FileNotFoundError path))]
       | Some content =>
           let k := Nat.min num_tokens (length content / 2) in
           [Print (MsgTokens k (unpack_u16le (take (k * 2) content)));
            Print (MsgFileSize (length content))]
       end).
Proof.
  unfold preview_binary_file, try_except, bind, open_rb, print, emit.
  destruct (fs m !! path) as [content|]; [|reflexivity].
  cbv zeta. rewrite preview_count, take_take.
  replace (Nat.min (Nat.min num_tokens (length content / 2) * 2) (num_tokens * 2))
    with (Nat.min num_tokens (length content / 2) * 2)%nat by lia.
  reflexivity.
Qed.

(** X2. The tokens of the preview are the first whole little-endian
    16-bit words of the file: there are [min(num_tokens, size // 2)] of
    them, each between 0 and 65535, the [j]-th being the byte at [2j] plus
    256 times the byte at [2j + 1]; a last odd byte is left out. *)
Theorem preview_tokens_little_endian (content : list byte) (num_tokens : nat) :
  let k := Nat.min num_tokens (length content / 2) in
  let tokens := unpack_u16le (take (k * 2) content) in
  length tokens = k
  /\ Forall (fun tok => 0 <= tok < 65536) tokens
  /\ forall (j : nat) (lo hi : byte),
       (j < k)%nat ->
       content !! (2 * j)%nat = Some lo -> content !! (2 * j + 1)%nat = Some hi ->
       tokens !! j = Some (Z.of_N (Byte.to_N lo) + 256 * Z.of_N (Byte.to_N hi)).
Proof.
  intros k tokens. split; [|split].
  - unfold tokens. rewrite length_unpack_u16le, length_take.
    assert (k * 2 <= length content)%nat.
    { assert (k <= length content / 2)%nat by (unfold k; lia).
      pose proof (Nat.Div0.mul_div_le (length content) 2). lia. }
    replace (Nat.min (k * 2) (length content)) with (k * 2)%nat by lia.
    apply Nat.div_mul. lia.
  - apply unpack_u16le_range.
  - intros j lo hi Hj Hlo Hhi. apply unpack_u16le_lookup.
    + rewrite lookup_take_lt by lia. exact Hlo.
    + rewrite lookup_take_lt by lia. exact Hhi.
Qed.

Lemma preview_tokens_little_endian_witness :
  unpack_u16le (take (Nat.min 10 (length Stub.shard_a / 2) * 2) Stub.shard_a) !! 1%nat
  = Some 2.
Proof.
  destruct (preview_tokens_little_endian Stub.shard_a 10) as (_ & _ & H).
  apply (H 1%nat x02 x00).
  - vm_compute. lia.
  - reflexivity.
  - reflexivity.
Defined.

(** *** Verification and the job *)

(** Case analysis on what an innermost [match] of the goal looks at. *)
Ltac case_innermost :=
  match goal with
  | |- context [match ?x with _ => _ end] =>
      lazymatch x with
      | context [match _ with _ => _ end] => fail
      | _ => case x; intros
      end
  end.

Section More.
Context {X : Type} (env : Env X).

Implicit Types (m : Machine X) (t : list Event).

Lemma eqb_empty_false (s : string) : s <> "" -> String.eqb s "" = false.
Proof. apply String.eqb_neq. Qed.

(** X3. A verification answers [True] exactly when the [get] exits with
    code 0 and some output, leaves a file at the verification path, and
    the digest of that file is the local digest it was given; without a
    local digest it never does. *)
Theorem verification_passes_iff
    (volume_name remote_path temp_dir : string) (local_hash : option string)
    (m : Machine X) :
  let vp := verify_path_of temp_dir remote_path in
  fst (fst (verify_modal_upload env volume_name remote_path local_hash temp_dir m))
  = inr true
  <-> exists p m1 data,
        spawn env (download_cmd_of volume_name remote_path vp) m = (inr p, m1)
        /\ returncode p = 0 /\ stdout p <> ""
        /\ fs m1 !! vp = Some data
        /\ local_hash = Some (hexlify (sha256 env data)).
Proof.
  intros vp. rewrite verify_modal_upload_run. cbv zeta. fold vp.
  destruct (spawn env _ m) as [[[cls msg]|p] m1].
  { split; [discriminate|]. intros (? & ? & ? & [=] & _). }
  destruct (Z.eqb_spec (returncode p) 0) as [Hz|Hnz].
  2:{ split; [discriminate|]. intros (? & ? & ? & [= <- <-] & ? & _). contradiction. }
  destruct (String.eqb_spec (stdout p) "") as [He|Hne].
  { split; [discriminate|]. intros (? & ? & ? & [= <- <-] & _ & ? & _). contradiction. }
  destruct (fs m1 !! vp) as [data|] eqn:Hvp.
  2:{ split; [discriminate|].
      intros (? & ? & ? & [= <- <-] & _ & _ & Hd & _). rewrite Hvp in Hd. discriminate. }
  rewrite stream_hexdigest_whole by apply block_4096_positive.
  destruct local_hash as [h|].
  2:{ split; [discriminate|]. intros (? & ? & ? & _ & _ & _ & _ & [=]). }
  destruct (decide (h = hexlify (sha256 env data))) as [->|Hdiff].
  - split; [|reflexivity]. intros _. exists p, m1, data. auto.
  - split; [discriminate|].
    intros (? & ? & d & [= <- <-] & _ & _ & Hd & [= ->]).
    rewrite Hvp in Hd. injection Hd as <-. contradiction.
Qed.

(** The answer of a job and the machine it leaves, by what the hub client
    answers. *)
Lemma job_answer filename temp_dir volume_name skip m :
  fst (download_and_upload_file env filename temp_dir volume_name skip m)
  = match hf_hub_download env "kjj0/finewebedu10B-gpt2" filename "dataset" temp_dir m with
    | (inl _, m1) => (inr false, m1)
    | (inr local_path, m1) =>
        let upload local_hash :=
          match upload_and_verify env filename temp_dir volume_name skip
                  local_path local_hash m1 with
          | (inl _, m2, _) => (inr false, m2)
          | (inr b, m2, _) => (inr b, m2)
          end in
        if skip then upload None
        else
          match fs m1 !! local_path with
          | Some data => upload (Some (hexlify (sha256 env data)))
          | None => (inr false, m1)
          end
    end.
Proof.
  rewrite download_and_upload_file_run.
  destruct (fetch_and_hash_run env filename temp_dir skip m) as (t0 & _ & ->).
  destruct (hf_hub_download env _ filename _ temp_dir m) as [[e|local_path] m1];
    [reflexivity|].
  cbv zeta. destruct skip.
  - destruct (upload_and_verify env _ _ _ _ local_path None m1) as [[[e|b] m2] t2];
      reflexivity.
  - destruct (fs m1 !! local_path) as [data|]; [|reflexivity].
    rewrite stream_hexdigest_whole by apply block_4096_positive.
    destruct (upload_and_verify env _ _ _ _ local_path _ m1) as [[[e|b] m2] t2];
      reflexivity.
Qed.

(** X4. With verification skipped, a job answers [True] exactly when
    the shard is fetched, the [put] exits with code 0 and some output, and
    the fetched file is still there to be removed; it is gone from the
    machine the job leaves, which is otherwise as the [put] left it. *)
Theorem unverified_job_succeeds_iff
    (filename temp_dir volume_name : string) (m mf : Machine X) :
  fst (download_and_upload_file env filename temp_dir volume_name true m)
  = (inr true, mf)
  <-> exists local_path m1 p m2,
        hf_hub_download env "kjj0/finewebedu10B-gpt2" filename "dataset" temp_dir m
        = (inr local_path, m1)
        /\ spawn env (upload_cmd_of volume_name local_path filename) m1 = (inr p, m2)
        /\ returncode p = 0 /\ stdout p <> ""
        /\ is_Some (fs m2 !! local_path)
        /\ mf = Build_Machine (delete local_path (fs m2)) (ext m2).
Proof.
  rewrite job_answer. split.
  - destruct (hf_hub_download env _ filename _ temp_dir m) as [[e|local_path] m1];
      [discriminate|].
    cbv beta iota zeta. rewrite upload_and_verify_run. cbv zeta.
    destruct (spawn env _ m1) as [[[cls msg]|p] m2] eqn:Hput; [discriminate|].
    destruct (Z.eqb_spec (returncode p) 0) as [Hz|Hnz]; [|discriminate].
    destruct (String.eqb_spec (stdout p) "") as [He|Hne]; [discriminate|].
    destruct (fs m2 !! local_path) as [kept|] eqn:Hkept; [|discriminate].
    intros [= <-]. exists local_path, m1, p, m2.
    rewrite Hkept. repeat split; eauto.
  - intros (local_path & m1 & p & m2 & -> & Hput & Hz & Hne & [kept Hkept] & ->).
    cbv beta iota zeta. rewrite upload_and_verify_run. cbv zeta.
    rewrite Hput, Hz, (eqb_empty_false _ Hne), Hkept. reflexivity.
Qed.

(** X5. With verification on, a job answers [True] exactly when the
    shard is fetched and is there to be hashed, both commands exit with
    code 0 and some output, the [get] leaves at the verification path a
    file with the same digest as the fetched one, and the fetched file is
    still there, apart from that copy, to be removed; neither file is in
    the machine the job leaves. *)
Theorem verified_job_succeeds_iff
    (filename temp_dir volume_name : string) (m mf : Machine X) :
  let vp := verify_path_of temp_dir ("/" +:+ filename) in
  fst (download_and_upload_file env filename temp_dir volume_name false m)
  = (inr true, mf)
  <-> exists local_path m1 local_data p m2 q m3 remote_data,
        hf_hub_download env "kjj0/finewebedu10B-gpt2" filename "dataset" temp_dir m
        = (inr local_path, m1)
        /\ fs m1 !! local_path = Some local_data
        /\ spawn env (upload_cmd_of volume_name local_path filename) m1 = (inr p, m2)
        /\ returncode p = 0 /\ stdout p <> ""
        /\ spawn env (download_cmd_of volume_name ("/" +:+ filename) vp) m2 = (inr q, m3)
        /\ returncode q = 0 /\ stdout q <> ""
        /\ fs m3 !! vp = Some remote_data
        /\ sha256 env remote_data = sha256 env local_data
        /\ is_Some (delete vp (fs m3) !! local_path)
        /\ mf = Build_Machine (delete local_path (delete vp (fs m3))) (ext m3).
Proof.
  intros vp. rewrite job_answer. split.
  - destruct (hf_hub_download env _ filename _ temp_dir m) as [[e|local_path] m1];
      [discriminate|].
    cbv beta iota zeta.
    destruct (fs m1 !! local_path) as [local_data|] eqn:Hlocal; [|discriminate].
    rewrite upload_and_verify_run. cbv zeta.
    destruct (spawn env _ m1) as [[[cls msg]|p] m2] eqn:Hput; [discriminate|].
    destruct (Z.eqb_spec (returncode p) 0) as [Hz|Hnz]; [|discriminate].
    destruct (String.eqb_spec (stdout p) "") as [He|Hne]; [discriminate|].
    rewrite verify_modal_upload_run. cbv zeta. fold vp.
    destruct (spawn env _ m2) as [[[cls msg]|q] m3] eqn:Hget; [discriminate|].
    destruct (Z.eqb_spec (returncode q) 0) as [Hq|Hnq]; [|discriminate].
    destruct (String.eqb_spec (stdout q) "") as [Hsilent|Hout]; [discriminate|].
    destruct (fs m3 !! vp) as [remote_data|] eqn:Hvp; [|discriminate].
    rewrite stream_hexdigest_whole by apply block_4096_positive.
    destruct (decide (_ = _)) as [Hd|Hbad]; [|discriminate].
    apply hexlify_inj in Hd. cbn [fs ext].
    destruct (delete vp (fs m3) !! local_path) as [kept|] eqn:Hkept; [|discriminate].
    intros [= <-]. exists local_path, m1, local_data, p, m2, q, m3, remote_data.
    rewrite Hkept. repeat split; eauto.
  - intros (local_path & m1 & local_data & p & m2 & q & m3 & remote_data
            & -> & Hlocal & Hput & Hz & Hne & Hget & Hq & Hout & Hvp & Hsame
            & [kept Hkept] & ->).
    cbv beta iota zeta. rewrite Hlocal, upload_and_verify_run. cbv zeta.
    rewrite Hput, Hz, (eqb_empty_false _ Hne). cbn [Z.eqb].
    rewrite verify_modal_upload_run. cbv zeta. fold vp.
    rewrite Hget, Hq, (eqb_empty_false _ Hout), Hvp. cbn [Z.eqb].
    rewrite stream_hexdigest_whole by apply block_4096_positive.
    rewrite Hsame.
    destruct (decide (_ = _)) as [_|Hbad]; [|contradiction].
    cbn [fs ext]. rewrite Hkept. reflexivity.
Qed.


Lemma commentary_fetches t :
  Forall (fun e => exists msg, e = Print msg /\ forall f, msg <> MsgProcessing f) t ->
  fetches t = [].
Proof.
  induction 1 as [|e t (msg & -> & _) _ IH]; [reflexivity | exact IH].
Qed.

(** The commands of the upload and its verification: the [put], then at
    most the [get]; no fetch. *)
Lemma upload_and_verify_commands filename temp_dir volume_name skip local_path local_hash m :
  let t := snd (upload_and_verify env filename temp_dir volume_name skip
                  local_path local_hash m) in
  let put := upload_cmd_of volume_name local_path filename in
  let get := download_cmd_of volume_name ("/" +:+ filename)
               (verify_path_of temp_dir ("/" +:+ filename)) in
  fetches t = []
  /\ (execs t = [put] \/ (skip = false /\ execs t = [put; get])).
Proof.
  rewrite upload_and_verify_run. cbv zeta.
  destruct (spawn env _ m) as [[[cls msg]|p] m1]; [cbn; auto|].
  case (returncode p =? 0); [|cbn; auto].
  case (String.eqb (stdout p) ""); [cbn; auto|].
  destruct skip; [case (fs m1 !! local_path); cbn; auto|].
  rewrite verify_modal_upload_run. cbv zeta.
  repeat case_innermost; cbn; auto.
Qed.

(** Fetching and hashing ask the hub once and start no command. *)
Lemma fetch_and_hash_commands filename temp_dir skip m :
  fetches (snd (fetch_and_hash env filename temp_dir skip m)) = [filename]
  /\ execs (snd (fetch_and_hash env filename temp_dir skip m)) = [].
Proof.
  split; [|apply fetch_and_hash_quiet].
  destruct (fetch_and_hash_run env filename temp_dir skip m) as (t0 & Ht0 & ->).
  pose proof (commentary_fetches _ Ht0) as Hf0. unfold fetches in *.
  repeat case_scrutinee; cbn [snd]; rewrite ?omap_app; cbn; rewrite ?Hf0;
    reflexivity.
Qed.


(** X7. When the hub client answers with a path at which there is no
    file, a job with verification on fails on the local digest and starts
    no command, while a job with verification skipped does not look and
    starts the [put] all the same. *)
Theorem missing_fetched_file
    (filename temp_dir volume_name local_path : string) (m m1 : Machine X) :
  hf_hub_download env "kjj0/finewebedu10B-gpt2" filename "dataset" temp_dir m
  = (inr local_path, m1) ->
  fs m1 !! local_path = None ->
  fst (download_and_upload_file env filename temp_dir volume_name false m)
  = (inr false, m1)
  /\ execs (snd (download_and_upload_file env filename temp_dir volume_name false m)) = []
  /\ execs (snd (download_and_upload_file env filename temp_dir volume_name true m))
     = [upload_cmd_of volume_name local_path filename].
Proof.
  intros Hhf Hnone. split; [|split].
  - rewrite job_answer, Hhf. cbv beta iota zeta. rewrite Hnone. reflexivity.
  - rewrite download_and_upload_file_run.
    destruct (fetch_and_hash_commands filename temp_dir false m) as [_ He1].
    destruct (fetch_and_hash_run env filename temp_dir false m) as (t0 & _ & Hrun).
    rewrite Hhf in Hrun. cbv beta iota zeta in Hrun. rewrite Hnone in Hrun.
    rewrite Hrun in He1 |- *. cbn [snd] in He1 |- *.
    match goal with
    | |- execs (?e :: ?t ++ ?u) = _ => change (execs (t ++ u) = [])
    end.
    rewrite execs_app, He1. reflexivity.
  - rewrite download_and_upload_file_run.
    destruct (fetch_and_hash_commands filename temp_dir true m) as [_ He1].
    destruct (fetch_and_hash_run env filename temp_dir true m) as (t0 & _ & Hrun).
    rewrite Hhf in Hrun. cbv beta iota zeta in Hrun.
    rewrite Hrun in He1 |- *. cbn [snd] in He1.
    pose proof (upload_and_verify_commands filename temp_dir volume_name true
                  local_path None m1) as Hup.
    cbv zeta in Hup.
    destruct (upload_and_verify env _ _ _ _ local_path None m1) as [[[e|b] m2] t2];
      cbn [snd] in Hup |- *; destruct Hup as [_ [Heu|[[=] _]]].
    + match goal with
      | |- execs (?e :: (?t ++ ?u) ++ ?v) = _ => change (execs ((t ++ u) ++ v) = [upload_cmd_of volume_name local_path filename])
      end.
      rewrite !execs_app, He1, Heu. reflexivity.
    + match goal with
      | |- execs (?e :: ?t ++ ?u) = _ => change (execs (t ++ u) = [upload_cmd_of volume_name local_path filename])
      end.
      rewrite !execs_app, He1, Heu. reflexivity.
Qed.

End More.

(** *** Skipping the verification *)

Ltac skip_events :=
  repeat first
    [ assumption
    | apply Forall_nil_2
    | apply List.Forall_cons
    | apply Forall_app_2
    | exact I
    | reflexivity ].

Section Skipping.
Context {X : Type} (env : Env X).

Implicit Types (m : Machine X) (t : list Event).

Lemma preview_binary_file_skip_events path num_tokens m :
  exists t, preview_binary_file path num_tokens m = (inr tt, m, t)
            /\ Forall skip_event t.
Proof.
  unfold preview_binary_file, try_except, bind, open_rb, print, emit.
  destruct (fs m !! path) as [content|]; cbn; eexists; (split; [reflexivity|]);
    skip_events.
Qed.

Lemma run_command_skip_events cmd description show_progress m :
  startswith "modal volume get" cmd = false ->
  Forall skip_event (snd (run_command env cmd description show_progress m)).
Proof.
  intros Hcmd. rewrite run_command_run. cbv zeta.
  destruct show_progress; repeat case_scrutinee; cbn [snd app]; skip_events.
Qed.

Lemma job_skip_events filename temp_dir volume_name m :
  Forall skip_event
    (snd (download_and_upload_file env filename temp_dir volume_name true m)).
Proof.
  unfold download_and_upload_file.
  unfold bind at 1, print at 1, emit, try_except.
  unfold bind at 1. unfold bind at 1, emit.
  destruct (hf_hub_download env _ filename _ temp_dir m) as [[e|local_path] m1].
  { cbn. skip_events. }
  unfold bind at 1, print at 1, emit. unfold bind at 1, print at 1, emit.
  unfold bind at 1.
  destruct (preview_binary_file_skip_events local_path 10 m1) as (tp & -> & Htp).
  cbn [negb]. unfold bind at 1, ret at 1. cbv zeta. unfold bind at 1.
  pose proof (run_command_skip_events
                (upload_cmd_of volume_name local_path filename)
                ("Uploading " +:+ filename +:+ " to Modal volume") true m1 eq_refl) as Hput.
  destruct (run_command env _ _ true m1) as [[[e|r] m2] t2]; cbn [snd] in Hput.
  { cbn. skip_events. }
  destruct (truthy r).
  - unfold bind, os_remove, print, emit, ret.
    destruct (fs m2 !! local_path); cbn; skip_events.
  - unfold bind, print, emit, ret. cbn. skip_events.
Qed.

Lemma training_loop_skip_events temp_dir volume_name indices s f m :
  Forall skip_event
    (snd (training_loop env temp_dir volume_name true indices s f m)).
Proof.
  revert s f m. induction indices as [|i rest IH]; intros s f m; [constructor|].
  cbn [training_loop]. unfold bind at 1, lift.
  pose proof (job_skip_events (training_file i) temp_dir volume_name m) as Hjob.
  destruct (download_and_upload_file env _ temp_dir volume_name true m)
    as [[[e|ok] m1] t1]; cbn [snd] in Hjob; [exact Hjob|].
  unfold bind at 1, print at 1, emit.
  specialize (IH (if ok then s + 1 else s) (if ok then f else f + 1) m1).
  destruct (training_loop env _ _ true rest _ _ m1) as [[r m2] t2].
  cbn [snd] in IH |- *. destruct r; cbn [snd]; skip_events.
Qed.

(** X8. With [--skip-verification] a run starts no [modal volume get]
    and prints nothing about digests or verification, whatever the
    hub and the tool do. *)
Theorem skipped_verification_is_skipped (args : Args) (m : Machine X) :
  skip_verification args = true ->
  Forall skip_event (snd (main env args m)).
Proof.
  intros Hskip. rewrite main_run, Hskip. cbv zeta.
  pose proof (run_command_skip_events "modal --version" "Checking Modal CLI"
                false m eq_refl) as Hcli.
  destruct (run_command env _ _ false m) as [[[e|r] m1] t1]; cbn [snd] in Hcli.
  { cbn [snd]. skip_events. }
  destruct (truthy r); [|cbn [snd]; skip_events].
  destruct (mkdtemp env m1) as [[e|temp_dir] m2]; [cbn [snd]; skip_events|].
  pose proof (job_skip_events validation_file temp_dir (volume args) m2) as Hval.
  destruct (download_and_upload_file env _ temp_dir _ true m2) as [[[e|[|]] m3] t3];
    cbn [snd] in Hval; [cbn [snd]; skip_events| |cbn [snd]; skip_events].
  pose proof (training_loop_skip_events temp_dir (volume args)
                (range 1 (chunks args + 1)) 0 0 m3) as Hloop.
  destruct (training_loop env _ _ true _ 0 0 m3) as [[[x|[s f]] m4] t4];
    cbn [snd] in Hloop; [cbn [snd]; skip_events|].
  destruct (f >? 0); cbn [snd]; skip_events.
Qed.

(** *** The digest function when nothing is verified *)

Lemma job_without_digest digest filename temp_dir volume_name :
  download_and_upload_file (with_digest digest env) filename temp_dir volume_name true
  = download_and_upload_file env filename temp_dir volume_name true.
Proof. reflexivity. Qed.

Lemma training_loop_without_digest digest temp_dir volume_name indices s f m :
  training_loop (with_digest digest env) temp_dir volume_name true indices s f m
  = training_loop env temp_dir volume_name true indices s f m.
Proof.
  revert s f m. induction indices as [|i rest IH]; intros s f m; [reflexivity|].
  cbn [training_loop]. rewrite job_without_digest.
  apply bind_ext. intros ok m1. apply bind_ext. intros _ m2. apply IH.
Qed.

(** X9. With [--skip-verification] the digest function plays no part:
    the run is the same, to the last line printed, with any other. *)
Theorem skipped_run_ignores_digest (digest : list byte -> list byte)
    (args : Args) (m : Machine X) :
  skip_verification args = true ->
  main (with_digest digest env) args m = main env args m.
Proof.
  intros Hskip. rewrite !main_run, Hskip. cbv zeta.
  change (run_command (with_digest digest env)) with (run_command env).
  change (mkdtemp (with_digest digest env)) with (mkdtemp env).
  destruct (run_command env _ _ false m) as [[[e|r] m1] t1]; [reflexivity|].
  destruct (truthy r); [|reflexivity].
  destruct (mkdtemp env m1) as [[e|temp_dir] m2]; [reflexivity|].
  rewrite job_without_digest.
  destruct (download_and_upload_file env _ temp_dir _ true m2) as [[[e|[|]] m3] t3];
    [reflexivity| |reflexivity].
  rewrite training_loop_without_digest. reflexivity.
Qed.

End Skipping.

(** *** Commands *)

Section Commands.
Context {X : Type} (env : Env X).

Implicit Types (m : Machine X) (t : list Event).


(** X11. When the shell cannot run the version check at all, the error
    is not caught: the run ends on it with status 1, having printed
    nothing but the warning of [--skip-verification], created no scratch
    directory and started no job. *)
Theorem unrunnable_check_is_fatal (args : Args) (m m1 : Machine X)
    (cls msg : string) :
  spawn env "modal --version" m = (inl (cls, msg), m1) ->
  main env args m
  = (inl (Exc (PyError cls msg)), m1,
     (if skip_verification args then [Print MsgVerificationDisabled] else [])
       ++ [Exec "modal --version"])
  /\ exit_status (fst (fst (main env args m))) = 1.
Proof.
  intros Hspawn. rewrite main_run, run_command_run, Hspawn. cbv zeta.
  split; reflexivity.
Qed.

(** *** The scratch directory *)

Lemma rmtree_under dir path m :
  under dir path = true -> fs (rmtree dir m) !! path = None.
Proof.
  intros Hu. unfold rmtree. cbn [fs].
  apply map_lookup_filter_None. right. intros data _. cbn [fst].
  rewrite Hu. discriminate.
Qed.

Lemma rmtree_elsewhere dir path m :
  under dir path = false -> fs (rmtree dir m) !! path = fs m !! path.
Proof.
  intros Hu. unfold rmtree. cbn [fs].
  destruct (fs m !! path) as [data|] eqn:Hp.
  - apply map_lookup_filter_Some. split; [exact Hp | exact Hu].
  - apply map_lookup_filter_None. left. exact Hp.
Qed.

(** X14. Once the scratch directory is made, nothing is left under it
    when the run ends, however it ends: on a failed validation shard, on
    failed training shards or on success. *)
Theorem scratch_directory_is_emptied (args : Args) (m m1 m2 : Machine X)
    (p : Completed) (temp_dir path : string) :
  spawn env "modal --version" m = (inr p, m1) ->
  returncode p = 0 -> stdout p <> "" ->
  mkdtemp env m1 = (inr temp_dir, m2) ->
  under temp_dir path = true ->
  fs (snd (fst (main env args m))) !! path = None.
Proof.
  intros Hspawn Hz Hout Hmk Hu.
  rewrite main_run, run_command_run, Hspawn, Hz. cbv zeta. cbn [Z.eqb].
  unfold truthy. apply String.eqb_neq in Hout. rewrite Hout. cbn [negb].
  rewrite Hmk.
  destruct (download_and_upload_file env _ temp_dir _ _ m2) as [[[e|[|]] m3] t3];
    cbn [fst snd]; [apply rmtree_under; exact Hu| |apply rmtree_under; exact Hu].
  destruct (training_loop env _ _ _ _ 0 0 m3) as [[[x|[s f]] m4] t4];
    [apply rmtree_under; exact Hu|].
  destruct (f >? 0); apply rmtree_under; exact Hu.
Qed.

(** *** The counts *)

Lemma tally_total os : tally true os + tally false os = Z.of_nat (length os).
Proof.
  induction os as [|o os IH]; [reflexivity|].
  rewrite !tally_cons. cbn [length].
  destruct o; repeat destruct (decide _); try congruence; lia.
Qed.

Lemma length_range lo hi : Z.of_nat (length (range lo hi)) = Z.max 0 (hi - lo).
Proof. unfold range. rewrite length_seqZ. lia. Qed.

(** X13. A run that gets past the validation shard prints two counts
    that add up to the number of shards: the uploads, the validation
    shard among them, and the failures, of which the exit status is 1 as
    soon as there is one. *)
Theorem summary_counts_add_up (args : Args) (m : Machine X) (os : list bool) :
  run_outcomes env args m = Some (true :: os) ->
  exists t0 uploaded failed last,
    snd (main env args m)
    = t0 ++ [Print MsgSummaryHeader; Print (MsgUploaded uploaded);
             Print (MsgFailedUploads failed); Print last]
    /\ uploaded + failed = Z.max 0 (chunks args) + 1
    /\ 1 <= uploaded /\ 0 <= failed
    /\ exit_status (fst (fst (main env args m))) = (if failed >? 0 then 1 else 0).
Proof.
  intros Hos.
  pose proof (run_outcomes_length env args m _ Hos) as Hlen.
  destruct (main_by_outcomes env args m _ Hos)
    as (b0 & rest & mf & t & [= <- <-] & Hmain & _ & Hsum & _).
  destruct (Hsum eq_refl) as (t0 & ->).
  exists t0, (tally true os + 1), (tally false os),
    (if tally false os >? 0 then MsgSomeFailed (tally false os) else MsgAllUploaded).
  rewrite Hmain. cbn [fst snd].
  pose proof (tally_total os) as Htot.
  pose proof (tally_nonneg true os). pose proof (tally_nonneg false os).
  pose proof (length_range 1 (chunks args + 1)) as Hr.
  cbn [length] in Hlen.
  repeat split; try lia.
  destruct (tally false os >? 0); reflexivity.
Qed.

(** X12. With a number of chunks that is not positive the run has the
    validation shard for only job, and its exit status is that job's
    answer. *)
Theorem no_training_shards (args : Args) (m : Machine X) (os : list bool) :
  chunks args <= 0 ->
  run_outcomes env args m = Some os ->
  exists b,
    os = [b]
    /\ processed (snd (main env args m)) = [validation_file]
    /\ exit_status (fst (fst (main env args m))) = (if b then 0 else 1).
Proof.
  intros Hn Hos.
  pose proof (run_outcomes_length env args m _ Hos) as Hlen.
  assert (Hr : range 1 (chunks args + 1) = []).
  { unfold range, seqZ. replace (Z.to_nat (chunks args + 1 - 1)) with 0%nat by lia.
    reflexivity. }
  rewrite Hr in Hlen. cbn [length] in Hlen.
  destruct (main_by_outcomes env args m _ Hos)
    as (b0 & rest & mf & t & -> & Hmain & Hproc & _).
  destruct rest; [|discriminate]. exists b0. split; [reflexivity|].
  rewrite Hmain. cbn [fst snd]. rewrite Hproc. unfold shard_files. rewrite Hr.
  destruct b0; split; reflexivity.
Qed.


End Commands.

(** *** The names of the shards *)

Lemma digit_char_inj (a b : Z) :
  0 <= a < 10 -> 0 <= b < 10 -> digit_char a = digit_char b -> a = b.
Proof.
  intros Ha Hb H. unfold digit_char in H.
  apply (f_equal nat_of_ascii) in H.
  rewrite !nat_ascii_embedding in H by lia. lia.
Qed.

Lemma six_digits_inj (i j : Z) :
  0 <= i < 1000000 -> 0 <= j < 1000000 -> six_digits i = six_digits j -> i = j.
Proof.
  intros Hi Hj H. unfold six_digits in H.
  injection H as H5 H4 H3 H2 H1 H0.
  apply digit_char_inj in H0, H1, H2, H3, H4, H5;
    try (apply Z.mod_pos_bound; lia).
  Z.div_mod_to_equations. lia.
Qed.

Lemma append_inj_l (p a b : string) : p +:+ a = p +:+ b -> a = b.
Proof.
  induction p as [|c p IH]; cbn [String.append]; [tauto|].
  intros [= H]. exact (IH H).
Qed.

Lemma append_inj_r (a b s : string) :
  String.length a = String.length b -> a +:+ s = b +:+ s -> a = b.
Proof.
  revert b. induction a as [|c a IH]; intros [|d b]; cbn [String.length String.append];
    try discriminate; [reflexivity|].
  intros [= Hl] H. injection H as -> H. rewrite (IH b Hl H). reflexivity.
Qed.

(** X15. Below a million, two training shards have the same name only
    if they have the same index, and none has the name of the validation
    shard. *)
Theorem training_files_are_distinct (i j : Z) :
  0 <= i < 1000000 -> 0 <= j < 1000000 ->
  (training_file i = training_file j -> i = j)
  /\ training_file i <> validation_file.
Proof.
  intros Hi Hj. split; [|apply training_file_not_validation].
  unfold training_file. intros H.
  apply append_inj_l in H. apply append_inj_r in H.
  - rewrite !format_06d_six_digits in H by assumption.
    apply six_digits_inj; assumption.
  - rewrite !format_06d_six_digits by assumption. reflexivity.
Qed.

(** *** Where the verification copy goes *)

Lemma startswith_append (p s : string) : startswith p (p +:+ s) = true.
Proof.
  induction p as [|c p IH]; [reflexivity|].
  change (String c p +:+ s) with (String c (p +:+ s)).
  cbn [startswith]. rewrite Ascii.eqb_refl. exact IH.
Qed.

Lemma append_assoc (a b c : string) : (a +:+ b) +:+ c = a +:+ (b +:+ c).
Proof.
  induction a as [|x a IH]; [reflexivity|].
  change (String x ((a +:+ b) +:+ c) = String x (a +:+ (b +:+ c))).
  rewrite IH. reflexivity.
Qed.

(** X16. The copy fetched back for the verification of a shard is
    written in the scratch directory, under [verify_] and the base name of
    the shard: it goes with the directory. *)
Theorem verification_copy_is_in_scratch (temp_dir filename : string) :
  temp_dir <> "" -> endswith_slash temp_dir = false ->
  verify_path_of temp_dir ("/" +:+ filename)
  = temp_dir +:+ "/verify_" +:+ os_path_basename filename
  /\ under temp_dir (verify_path_of temp_dir ("/" +:+ filename)) = true.
Proof.
  intros Hne Hslash.
  assert (Hpath : verify_path_of temp_dir ("/" +:+ filename)
                  = temp_dir +:+ "/verify_" +:+ os_path_basename filename).
  { unfold verify_path_of, os_path_join.
    change (os_path_basename ("/" +:+ filename)) with (os_path_basename filename).
    change (startswith "/" ("verify_" +:+ os_path_basename filename)) with false.
    cbv iota. rewrite Hslash. apply String.eqb_neq in Hne. rewrite Hne.
    reflexivity. }
  split; [exact Hpath|].
  rewrite Hpath. unfold under.
  change (temp_dir +:+ "/verify_" +:+ os_path_basename filename)
    with (temp_dir +:+ "/" +:+ ("verify_" +:+ os_path_basename filename)).
  rewrite <- append_assoc. apply startswith_append.
Qed.

Section Files.
Context {X : Type} (env : Env X).

Implicit Types (m : Machine X) (t : list Event).

(** *** What a job removes *)

Lemma upload_and_verify_removes filename temp_dir volume_name skip local_path local_hash m :
  let t := snd (upload_and_verify env filename temp_dir volume_name skip
                  local_path local_hash m) in
  let vp := verify_path_of temp_dir ("/" +:+ filename) in
  removes t = [] \/ removes t = [local_path]
  \/ (skip = false /\ (removes t = [vp] \/ removes t = [vp; local_path])).
Proof.
  rewrite upload_and_verify_run. cbv zeta.
  destruct (spawn env _ m) as [[[cls msg]|p] m1]; [cbn; auto|].
  case (returncode p =? 0); [|cbn; auto].
  case (String.eqb (stdout p) ""); [cbn; auto|].
  destruct skip; [case (fs m1 !! local_path); cbn; auto|].
  rewrite verify_modal_upload_run. cbv zeta.
  repeat case_innermost; cbn; auto 6.
Qed.

(** X18. A job removes no file but its own: the one the hub client
    handed it and, with verification on, the copy fetched back from the
    volume, each at most once and the copy first. *)
Theorem job_removes_only_its_own_files (filename temp_dir volume_name : string)
    (skip : bool) (m : Machine X) :
  let t := snd (download_and_upload_file env filename temp_dir volume_name skip m) in
  let vp := verify_path_of temp_dir ("/" +:+ filename) in
  removes t = []
  \/ exists local_path m1,
       hf_hub_download env "kjj0/finewebedu10B-gpt2" filename "dataset" temp_dir m
       = (inr local_path, m1)
       /\ (removes t = [local_path]
           \/ (skip = false /\ (removes t = [vp] \/ removes t = [vp; local_path]))).
Proof.
  rewrite download_and_upload_file_run.
  destruct (fetch_and_hash_quiet env filename temp_dir skip m) as [_ Hr1].
  destruct (fetch_and_hash_run env filename temp_dir skip m) as (t0 & _ & Hrun).
  destruct (fetch_and_hash env filename temp_dir skip m) as [[[e|[lp lh]] m1] t1];
    cbn [snd] in Hr1.
  { left. cbn [snd].
    change (removes (Print (MsgProcessing filename) :: t1 ++ [Print (MsgJobError filename e)]))
      with (removes (t1 ++ [Print (MsgJobError filename e)])).
    rewrite removes_app, Hr1. reflexivity. }
  assert (Hhub : hf_hub_download env "kjj0/finewebedu10B-gpt2" filename "dataset"
                   temp_dir m = (inr lp, m1)).
  { destruct (hf_hub_download env _ filename _ temp_dir m) as [[e|lp'] m1'];
      [discriminate|].
    cbv zeta in Hrun. destruct skip; [congruence|].
    destruct (fs m1' !! lp'); [congruence|discriminate]. }
  pose proof (upload_and_verify_removes filename temp_dir volume_name skip lp lh m1) as Hup.
  cbv zeta in Hup.
  destruct (upload_and_verify env _ _ _ _ lp lh m1) as [[[e|b] m2] t2];
    cbn [snd] in Hup |- *.
  - change (removes (Print (MsgProcessing filename)
                       :: (t1 ++ t2) ++ [Print (MsgJobError filename e)]))
      with (removes ((t1 ++ t2) ++ [Print (MsgJobError filename e)])).
    rewrite !removes_app, Hr1. cbn [app removes omap]. rewrite List.app_nil_r.
    destruct Hup as [Hup|Hup]; [left; exact Hup|right; exists lp, m1; auto].
  - change (removes (Print (MsgProcessing filename) :: t1 ++ t2))
      with (removes (t1 ++ t2)).
    rewrite !removes_app, Hr1. cbn [app].
    destruct Hup as [Hup|Hup]; [left; exact Hup|right; exists lp, m1; auto].
Qed.

(** X20. When the hub client raises, the job answers [False] at once:
    it has printed its opening line and the error, started no command and
    left the machine as the hub client left it. *)
Theorem hub_error_fails_the_job (filename temp_dir volume_name : string)
    (skip : bool) (m m1 : Machine X) (e : error) :
  hf_hub_download env "kjj0/finewebedu10B-gpt2" filename "dataset" temp_dir m
  = (inl e, m1) ->
  download_and_upload_file env filename temp_dir volume_name skip m
  = (inr false, m1,
     [Print (MsgProcessing filename); Fetch filename; Print (MsgJobError filename e)]).
Proof.
  intros Hhub. rewrite download_and_upload_file_run.
  destruct (fetch_and_hash_run env filename temp_dir skip m) as (t0 & _ & ->).
  rewrite Hhub. reflexivity.
Qed.

(** *** No shard twice *)

Lemma NoDup_training_files (n : nat) (lo : Z) :
  0 <= lo -> lo + Z.of_nat n <= 1000000 ->
  NoDup (map training_file (seqZ lo (Z.of_nat n))).
Proof.
  revert lo. induction n as [|n IH]; intros lo Hlo Hhi.
  { constructor. }
  rewrite seqZ_cons by lia. cbn [fmap list_fmap map].
  replace (Z.pred (Z.of_nat (S n))) with (Z.of_nat n) by lia.
  constructor.
  - intros Hin. apply list_elem_of_In, List.in_map_iff in Hin.
    destruct Hin as (j & Hj & Hin). apply list_elem_of_In, elem_of_seqZ in Hin.
    assert (j = lo); [|lia].
    unfold training_file in Hj.
    apply append_inj_l in Hj. apply append_inj_r in Hj.
    + rewrite !format_06d_six_digits in Hj by lia.
      apply six_digits_inj in Hj; lia.
    + rewrite !format_06d_six_digits by lia. reflexivity.
  - apply IH; lia.
Qed.

Lemma NoDup_shard_files (args : Args) :
  chunks args < 1000000 -> NoDup (shard_files args).
Proof.
  intros Hn. unfold shard_files, range. constructor.
  - intros Hin. apply list_elem_of_In, List.in_map_iff in Hin.
    destruct Hin as (j & Hj & _). exact (training_file_not_validation j Hj).
  - destruct (Z.le_gt_cases (chunks args + 1 - 1) 0) as [Hle|Hgt].
    + unfold seqZ. replace (Z.to_nat (chunks args + 1 - 1)) with 0%nat by lia.
      constructor.
    + rewrite <- (Z2Nat.id (chunks args + 1 - 1)) by lia.
      apply NoDup_training_files; lia.
Qed.

(** X19. With fewer than a million chunks no shard is processed twice
    in a run. *)
Theorem no_shard_is_processed_twice (args : Args) (m : Machine X) :
  chunks args < 1000000 ->
  NoDup (processed (snd (main env args m))).
Proof.
  intros Hn. destruct (run_outcomes env args m) as [os|] eqn:Hos.
  - destruct (main_by_outcomes env args m _ Hos)
      as (b0 & rest & mf & t & _ & -> & Hproc & _).
    cbn [snd]. rewrite Hproc. destruct b0.
    + apply NoDup_shard_files. exact Hn.
    + apply NoDup_singleton.
  - destruct (main_without_outcomes env args m Hos) as [_ ->]. constructor.
Qed.

End Files.

(** ** The further theorems at work on the test double *)

Lemma verification_passes_iff_witness :
  fst (fst (verify_modal_upload (Stub.env Stub.honest) "fineweb-volume"
              "/finewebedu_val_000000.bin"
              (Some (hexlify (Stub.toy_digest Stub.shard_a)))
              Stub.scratch Stub.remote_only))
  = inr true.
Proof.
  apply (proj2 (verification_passes_iff (Stub.env Stub.honest) "fineweb-volume"
                  "/finewebedu_val_000000.bin" Stub.scratch
                  (Some (hexlify (Stub.toy_digest Stub.shard_a))) Stub.remote_only)).
  exists (Stub.exited 0 "downloaded" ""),
    (Build_Machine {[ "/tmp/tmpq0w1/verify_finewebedu_val_000000.bin" := Stub.shard_a ]}
       (ext Stub.remote_only)),
    Stub.shard_a.
  repeat split; try (vm_compute; reflexivity). discriminate.
Defined.

Lemma unverified_job_succeeds_iff_witness :
  exists p : Completed, returncode p = 0 /\ stdout p <> "".
Proof.
  destruct (proj1 (unverified_job_succeeds_iff (Stub.env Stub.honest) validation_file
                     Stub.scratch "fineweb-volume" (Stub.boot [])
                     (snd (fst (download_and_upload_file (Stub.env Stub.honest)
                                  validation_file Stub.scratch "fineweb-volume" true
                                  (Stub.boot []))))))
    as (lp & m1 & p & m2 & _ & _ & Hz & Hout & _).
  - vm_compute. reflexivity.
  - exists p. split; assumption.
Defined.

Lemma verified_job_succeeds_iff_witness :
  exists local_data remote_data : list byte,
    Stub.toy_digest remote_data = Stub.toy_digest local_data.
Proof.
  destruct (proj1 (verified_job_succeeds_iff (Stub.env Stub.honest) validation_file
                     Stub.scratch "fineweb-volume" (Stub.boot [])
                     (snd (fst (download_and_upload_file (Stub.env Stub.honest)
                                  validation_file Stub.scratch "fineweb-volume" false
                                  (Stub.boot []))))))
    as (lp & m1 & local_data & p & m2 & q & m3 & remote_data & _ & _ & _ & _ & _
        & _ & _ & _ & _ & Hsame & _).
  - vm_compute. reflexivity.
  - exists local_data, remote_data. exact Hsame.
Defined.

Lemma missing_fetched_file_witness :
  execs (snd (download_and_upload_file Stub.forgetful validation_file Stub.scratch
                "fineweb-volume" false (Stub.boot [])))
  = []
  /\ execs (snd (download_and_upload_file Stub.forgetful validation_file Stub.scratch
                   "fineweb-volume" true (Stub.boot [])))
     = [upload_cmd_of "fineweb-volume" Stub.fetched validation_file].
Proof.
  destruct (missing_fetched_file Stub.forgetful validation_file Stub.scratch
              "fineweb-volume" Stub.fetched (Stub.boot []) (Stub.boot []))
    as (_ & Hon & Hoff).
  - reflexivity.
  - reflexivity.
  - split; assumption.
Defined.

Lemma skipped_verification_is_skipped_witness :
  Forall skip_event
    (snd (main (Stub.env Stub.honest) Stub.two_chunks_unverified (Stub.boot [1; 2]))).
Proof.
  apply (skipped_verification_is_skipped (Stub.env Stub.honest)
           Stub.two_chunks_unverified (Stub.boot [1; 2])).
  reflexivity.
Defined.

Lemma skipped_run_ignores_digest_witness :
  main (with_digest (fun _ => []) (Stub.env Stub.honest)) Stub.two_chunks_unverified
    (Stub.boot [1; 2])
  = main (Stub.env Stub.honest) Stub.two_chunks_unverified (Stub.boot [1; 2]).
Proof.
  apply (skipped_run_ignores_digest (Stub.env Stub.honest) (fun _ => [])
           Stub.two_chunks_unverified (Stub.boot [1; 2])).
  reflexivity.
Defined.


Lemma unrunnable_check_is_fatal_witness :
  exit_status (fst (fst (main Stub.no_shell Stub.two_chunks (Stub.boot [1; 2])))) = 1.
Proof.
  apply (unrunnable_check_is_fatal Stub.no_shell Stub.two_chunks (Stub.boot [1; 2])
           (Stub.boot [1; 2]) "OSError" "cannot allocate memory").
  reflexivity.
Defined.

Lemma scratch_directory_is_emptied_witness :
  fs (snd (fst (main (Stub.env Stub.corrupting) Stub.two_chunks (Stub.boot [1; 2]))))
    !! Stub.fetched = None.
Proof.
  apply (scratch_directory_is_emptied (Stub.env Stub.corrupting) Stub.two_chunks
           (Stub.boot [1; 2]) (Stub.boot [1; 2]) (Stub.boot [1; 2])
           (Stub.exited 0 "modal client version: 1.1.0" "") Stub.scratch Stub.fetched).
  - reflexivity.
  - reflexivity.
  - discriminate.
  - reflexivity.
  - reflexivity.
Defined.

Lemma summary_counts_add_up_witness :
  exists uploaded failed : Z, uploaded + failed = 3 /\ 1 <= uploaded /\ 0 <= failed.
Proof.
  destruct (summary_counts_add_up (Stub.env Stub.honest) Stub.two_chunks
              (Stub.boot [2]) [false; true])
    as (t0 & uploaded & failed & last & _ & Hsum & Hu & Hf & _).
  - vm_compute. reflexivity.
  - exists uploaded, failed. repeat split; assumption.
Defined.

Lemma no_training_shards_witness :
  processed (snd (main (Stub.env Stub.honest) Stub.no_chunks (Stub.boot [1; 2])))
  = [validation_file].
Proof.
  destruct (no_training_shards (Stub.env Stub.honest) Stub.no_chunks
              (Stub.boot [1; 2]) [true])
    as (b & _ & Hproc & _).
  - vm_compute. discriminate.
  - vm_compute. reflexivity.
  - exact Hproc.
Defined.

Lemma training_files_are_distinct_witness :
  (training_file 1 = training_file 2 -> 1 = 2)
  /\ training_file 1 <> validation_file.
Proof.
  apply (training_files_are_distinct 1 2); lia.
Defined.

Lemma verification_copy_is_in_scratch_witness :
  verify_path_of Stub.scratch ("/" +:+ validation_file)
  = "/tmp/tmpq0w1/verify_finewebedu_val_000000.bin"
  /\ under Stub.scratch (verify_path_of Stub.scratch ("/" +:+ validation_file)) = true.
Proof.
  apply (verification_copy_is_in_scratch Stub.scratch validation_file).
  - discriminate.
  - reflexivity.
Defined.

Lemma hub_error_fails_the_job_witness :
  fst (fst (download_and_upload_file (Stub.env Stub.honest) (training_file 1)
              Stub.scratch "fineweb-volume" false (Stub.boot [])))
  = inr false.
Proof.
  rewrite (hub_error_fails_the_job (Stub.env Stub.honest) (training_file 1) Stub.scratch
             "fineweb-volume" false (Stub.boot []) (Stub.boot [])
             (PyError "EntryNotFoundError" (training_file 1))).
  - reflexivity.
  - vm_compute. reflexivity.
Defined.

Lemma no_shard_is_processed_twice_witness :
  NoDup (processed (snd (main (Stub.env Stub.honest) Stub.two_chunks (Stub.boot [1; 2])))).
Proof.
  apply (no_shard_is_processed_twice (Stub.env Stub.honest) Stub.two_chunks
           (Stub.boot [1; 2])).
  vm_compute. reflexivity.
Defined.
